(** * Native Image build reports of setup-graalvm: report and comparison engine

    A shallow embedding of [src/features/reports.ts] and properties of it.

    - Module [JS]: the pieces of the JavaScript runtime the reports use.
      A Number is an IEEE-754 binary64 value, modelled with the Standard
      Library's [spec_float] at precision 53 and maximal exponent 1024, so
      that ratios and their comparisons are the rounded ones; [toFixed] and
      the conversion of a Number to text follow ECMA-262.
    - Module [Reports]: the functions of [reports.ts], in source order, the
      set-up of the build last.  A template literal is the list of its
      lines joined by newlines, each line the concatenation of its
      fragments; what the action does to the outside world is a trace of
      events, what the set-up does to the environment and the options file
      a change of a world.
    - Sample snapshots, sample runs and the vocabulary of the statements.
    - Properties: facts about decimal output and binary64 arithmetic, then
      one section per property of the report engine; further properties of
      the compare columns, the tables, the chart comparison, the runs of
      [generateReports] and the set-up follow. *)

From Stdlib Require Import ZArith Lia Bool List Ascii String.
From Stdlib Require Import Floats.SpecFloat.
From Stdlib Require Import Numbers.DecimalString.
Import ListNotations.

Open Scope string_scope.
Open Scope Z_scope.

(** ** The JavaScript runtime pieces the reports rely on *)

Module JS.

(** A Number is a binary64 float. *)
Definition number : Type := spec_float.

Definition prec : Z := 53.
Definition emax : Z := 1024.

Definition NaN : number := S754_nan.
Definition Infinity : number := S754_infinity false.

(** The Number denoted by an integer literal, and by a decimal literal
    [p / q] (both correctly rounded, as [JSON.parse] and the compiler do). *)
Definition ofZ (z : Z) : number := binary_normalize prec emax z 0 false.

Definition ofQ (p : Z) (q : positive) : number :=
  match p with
  | Z0 => S754_zero false
  | Zpos m => SFdiv prec emax (S754_finite false m 0) (S754_finite false q 0)
  | Zneg m => SFdiv prec emax (S754_finite true m 0) (S754_finite false q 0)
  end.

(** Arithmetic and comparison operators. *)
Definition sub (x y : number) : number := SFsub prec emax x y.
Definition mul (x y : number) : number := SFmul prec emax x y.
Definition div (x y : number) : number := SFdiv prec emax x y.
Definition lt (x y : number) : bool := SFltb x y.
Definition gt (x y : number) : bool := SFltb y x.
Definition ge (x y : number) : bool := SFleb y x.
Definition Math_abs (x : number) : number := SFabs x.

Definition isNaN (x : number) : bool :=
  match x with S754_nan => true | _ => false end.

Definition isFinite (x : number) : bool :=
  match x with S754_zero _ | S754_finite _ _ _ => true | _ => false end.

(** Truthiness of a Number ([if (x)]): false for +0, -0 and NaN. *)
Definition truthy (x : number) : bool :=
  match x with S754_zero _ | S754_nan => false | _ => true end.

(** [x % y]: the remainder of the truncating division, exact, with the sign
    of the dividend. *)
Definition rem (x y : number) : number :=
  match x, y with
  | S754_nan, _ | _, S754_nan => S754_nan
  | S754_infinity _, _ => S754_nan
  | _, S754_zero _ => S754_nan
  | _, S754_infinity _ => x
  | S754_zero _, _ => x
  | S754_finite sx mx ex, S754_finite _ my ey =>
      let e := Z.min ex ey in
      let X := Z.shiftl (Zpos mx) (ex - e) in
      let Y := Z.shiftl (Zpos my) (ey - e) in
      binary_normalize prec emax (cond_Zopp sx (X mod Y)) e sx
  end.

(** [Math.trunc] and [Math.floor]. *)
Definition Math_trunc (x : number) : number :=
  match x with
  | S754_finite sx mx ex =>
      if 0 <=? ex then x
      else binary_normalize prec emax
             (cond_Zopp sx (Z.shiftr (Zpos mx) (- ex))) 0 sx
  | _ => x
  end.

Definition Math_floor (x : number) : number :=
  match x with
  | S754_finite sx mx ex =>
      if 0 <=? ex then x
      else binary_normalize prec emax
             (Z.shiftr (cond_Zopp sx (Zpos mx)) (- ex)) 0 sx
  | _ => x
  end.

(** *** Decimal output *)

Definition nl : string := String (ascii_of_nat 10) EmptyString.
Definition dq : string := String (ascii_of_nat 34) EmptyString.

Definition digits (n : Z) : string :=
  NilZero.string_of_uint (N.to_uint (Z.to_N n)).

Fixpoint zeros (n : nat) : string :=
  match n with
  | O => EmptyString
  | S n' => String "0" (zeros n')
  end.

(** The exact value of a positive finite Number as a fraction. *)
Definition fraction (m : positive) (e : Z) : Z * Z :=
  if 0 <=? e then (Z.shiftl (Zpos m) e, 1) else (Zpos m, Z.shiftl 1 (- e)).

(** [smallExponent fuel num den j] searches from [j] on the least exponent
    with [num * 10^j >= den]. *)
Fixpoint smallExponent (fuel : nat) (num den j : Z) : Z :=
  match fuel with
  | O => j
  | S fuel' =>
      if den <=? num * 10 ^ j then j
      else smallExponent fuel' num den (j + 1)
  end.

(** The [n] with [10^(n-1) <= num/den < 10^n]. *)
Definition decimalExponent (num den : Z) : Z :=
  if den <=? num then Z.of_nat (String.length (digits (num / den)))
  else 1 - smallExponent 400 num den 1.

(** The Number nearest to [s * 10^t]. *)
Definition ofDecimal (s : positive) (t : Z) : number :=
  if 0 <=? t then binary_normalize prec emax (Zpos s * 10 ^ t) 0 false
  else SFdiv prec emax (S754_finite false s 0)
                       (S754_finite false (Z.to_pos (10 ^ (- t))) 0).

Definition sameNumber (x y : number) : bool :=
  match x, y with
  | S754_finite sx mx ex, S754_finite sy my ey =>
      Bool.eqb sx sy && Pos.eqb mx my && Z.eqb ex ey
  | _, _ => false
  end.

(** The shortest digit string [s] (of [k] digits) and exponent [n] with
    [s * 10^(n-k)] rounding to the Number; among the candidates of that
    length the one closest to the Number. *)
Fixpoint shortest (fuel : nat) (m : positive) (e : Z) (n k : Z) : Z * Z :=
  let '(num, den) := fraction m e in
  (* x * 10^(k-n) = a / b *)
  let a := if 0 <=? k - n then num * 10 ^ (k - n) else num in
  let b := if 0 <=? k - n then den else den * 10 ^ (n - k) in
  let lo := a / b in
  let hi := lo + 1 in
  let ok s := (0 <? s) && sameNumber (ofDecimal (Z.to_pos s) (n - k))
                                      (S754_finite false m e) in
  let pick :=
    match ok lo, ok hi with
    | true, true =>
        (* distance to lo is (a - lo*b)/b, to hi is (hi*b - a)/b *)
        match (a - lo * b) ?= (hi * b - a) with
        | Lt => Some lo
        | Gt => Some hi
        | Eq => Some (if Z.even lo then lo else hi)
        end
    | true, false => Some lo
    | false, true => Some hi
    | false, false => None
    end in
  match pick, fuel with
  | Some s, _ => (s, k)
  | None, O => (lo, k)
  | None, S fuel' => shortest fuel' m e n (k + 1)
  end.

(** Trailing zeros of the digit string are dropped ([hi] may be [10^k]). *)
Fixpoint stripZeros (fuel : nat) (s : Z) : Z :=
  match fuel with
  | O => s
  | S fuel' => if (s mod 10 =? 0) && (0 <? s) then stripZeros fuel' (s / 10) else s
  end.

Definition exponentPart (n : Z) : string :=
  (if 0 <=? n - 1 then "e+" else "e-") ++ digits (Z.abs (n - 1)).

(** [Number::toString] for a positive finite Number. *)
Definition positiveToString (m : positive) (e : Z) : string :=
  let '(num, den) := fraction m e in
  let n0 := decimalExponent num den in
  let '(s0, k0) := shortest 17 m e n0 1 in
  let n := if s0 =? 10 ^ k0 then n0 + 1 else n0 in
  let s := stripZeros 20 s0 in
  let ds := digits s in
  let k := Z.of_nat (String.length ds) in
  if (k <=? n) && (n <=? 21) then ds ++ zeros (Z.to_nat (n - k))
  else if (0 <? n) && (n <=? 21) then
    substring 0 (Z.to_nat n) ds ++ "." ++ substring (Z.to_nat n) (Z.to_nat (k - n)) ds
  else if (-6 <? n) && (n <=? 0) then "0." ++ zeros (Z.to_nat (- n)) ++ ds
  else if k =? 1 then ds ++ exponentPart n
  else substring 0 1 ds ++ "." ++ substring 1 (Z.to_nat (k - 1)) ds ++ exponentPart n.

(** [String(x)], the conversion a template literal applies to a Number. *)
Definition numberToString (x : number) : string :=
  match x with
  | S754_nan => "NaN"
  | S754_zero _ => "0"
  | S754_infinity false => "Infinity"
  | S754_infinity true => "-Infinity"
  | S754_finite false m e => positiveToString m e
  | S754_finite true m e => "-" ++ positiveToString m e
  end.

(** [x.toFixed(f)], ECMA-262 21.1.3.3, for [0 <= f <= 100]. *)
Definition toFixed (x : number) (f : nat) : string :=
  match x with
  | S754_finite sx m e =>
      let '(num, den) := fraction m e in
      if 10 ^ 21 * den <=? num then numberToString x
      else
        (* the integer n with n / 10^f nearest to the value, the larger on a tie *)
        let n := (2 * num * 10 ^ Z.of_nat f + den) / (2 * den) in
        let ds := digits n in
        let padded := zeros (S f - String.length ds) ++ ds in
        let k := String.length padded in
        let body :=
          match f with
          | O => ds
          | _ => substring 0 (k - f) padded ++ "." ++ substring (k - f) f padded
          end in
        (if sx then "-" else "") ++ body
  | S754_zero _ =>
      match f with
      | O => "0"
      | _ => "0." ++ zeros f
      end
  | _ => numberToString x
  end.

(** [s.startsWith(t)], [s.includes(t)] and [s.toLowerCase()] (on ASCII
    letters). *)
Fixpoint startsWith (s t : string) {struct t} : bool :=
  match t with
  | EmptyString => true
  | String b t' =>
      match s with
      | EmptyString => false
      | String a s' => Ascii.eqb a b && startsWith s' t'
      end
  end.

Fixpoint includes (s t : string) : bool :=
  startsWith s t ||
  match s with
  | EmptyString => false
  | String _ s' => includes s' t
  end.

Definition lowerChar (c : ascii) : ascii :=
  let n := nat_of_ascii c in
  if ((65 <=? n) && (n <=? 90))%nat then ascii_of_nat (n + 32) else c.

Fixpoint toLowerCase (s : string) : string :=
  match s with
  | EmptyString => EmptyString
  | String c s' => String (lowerChar c) (toLowerCase s')
  end.

End JS.

(** ** The report engine, [src/features/reports.ts] *)

Module Reports.
Import JS.

Definition BYTES_TO_KiB : number := ofZ 1024.
Definition BYTES_TO_MiB : number := ofZ (1024 * 1024).
Definition BYTES_TO_GiB : number := ofZ (1024 * 1024 * 1024).
Definition DOCS_BASE : string :=
  "https://github.com/oracle/graal/blob/master/docs/reference-manual/native-image/BuildOutput.md".
Definition INPUT_NI_JOB_REPORTS : string := "native-image-job-reports".
Definition INPUT_NI_PR_REPORTS : string := "native-image-pr-reports".
Definition INPUT_NI_PR_COMPARISON : string := "native-image-pr-comparison".
Definition INPUT_NI_PR_COMPARISON_PARAMETERS : string :=
  "native-image-pr-comparison-parameter".

(** *** The build output record *)

Record AnalysisResult := {
  total : number;
  reachable : number;
  reflection : number;
  jni : number
}.

Record GraalCompiler := {
  optimization_level : string;
  march : string;
  pgo : option (list string)
}.

(** [java_version] and [c_compiler] may be [null] ([None]); [vendor_version]
    and [graal_compiler] may be absent ([None]). *)
Record GeneralInfo := {
  name : string;
  graalvm_version : string;
  java_version : option string;
  vendor_version : option string;
  c_compiler : option string;
  garbage_collector : string;
  graal_compiler : option GraalCompiler
}.

Record analysisResults := {
  classes : AnalysisResult;
  types : option AnalysisResult;
  fields : AnalysisResult;
  methods : AnalysisResult
}.

Record CodeArea := { code_bytes : number; compilation_units : number }.
Record Resources := { res_count : number; res_bytes : number }.
Record ImageHeap := {
  heap_bytes : number;
  objects : option number;      (* objects.count *)
  resources : Resources
}.
Record RuntimeCompiledMethods := {
  rcm_count : number;
  graph_encoding_bytes : number
}.
Record ImageDetails := {
  total_bytes : number;
  code_area : CodeArea;
  image_heap : ImageHeap;
  debug_info : option number;   (* debug_info.bytes *)
  runtime_compiled_methods : option RuntimeCompiledMethods
}.

Record Cpu := { load : number; total_cores : number }.
Record GarbageCollection := { gc_count : number; gc_total_secs : number }.
Record Memory := { system_total : number; peak_rss_bytes : number }.
Record ResourceUsage := {
  cpu : Cpu;
  garbage_collection : GarbageCollection;
  memory : Memory;
  total_secs : option number
}.

Record BuildOutput := {
  general_info : GeneralInfo;
  analysis_results : analysisResults;
  image_details : ImageDetails;
  resource_usage : ResourceUsage
}.

(** *** Derivation helpers *)

Definition toPercent (part total : number) : string :=
  toFixed (mul (div part total) (ofZ 100)) 3 ++ "%".

Definition getDiffPercent (baseValue recentValue : number) : string :=
  let sign := if lt recentValue baseValue then "-" else "+" in
  sign ++ toFixed (mul (div (Math_abs (sub recentValue baseValue)) baseValue)
                       (ofZ 100)) 3 ++ "%".

Definition bytesToHuman (bytes : number) : string :=
  if lt (Math_abs bytes) BYTES_TO_KiB then
    toFixed bytes 2 ++ "B"
  else if lt (Math_abs bytes) BYTES_TO_MiB then
    toFixed (div bytes BYTES_TO_KiB) 2 ++ "KB"
  else if lt (Math_abs bytes) BYTES_TO_GiB then
    toFixed (div bytes BYTES_TO_MiB) 2 ++ "MB"
  else
    toFixed (div bytes BYTES_TO_GiB) 2 ++ "GB".

Definition secondsToHuman (seconds : number) : string :=
  if lt seconds (ofZ 60) then
    toFixed seconds 1 ++ "s"
  else
    numberToString (Math_trunc (div seconds (ofZ 60))) ++ "m " ++
    numberToString (Math_trunc (rem seconds (ofZ 60))) ++ "s".

Definition normalizeValue (value baseValue : number) : string :=
  toFixed (mul (div value baseValue) (ofZ 100)) 0.

(** *** Markup fragments *)

Definition attr (k v : string) : string := " " ++ k ++ "=" ++ dq ++ v ++ dq.

Definition TD_LEFT : string := "<td" ++ attr "align" "left" ++ ">".
Definition TD_RIGHT : string := "<td" ++ attr "align" "right" ++ ">".

Definition lines (l : list string) : string := String.concat nl l.

(** *** The compare columns ([compareValue] is [number | null]) *)

Definition getCompareColumnTime (value : number) (compareValue : option number)
    (lowerPercentageBoarder higherPercentageBoarder : number)
    (smallIsPositive : bool) : string :=
  match compareValue with
  | None => ""
  | Some compareValue =>
      let r := mul (div value compareValue) (ofZ 100) in
      let d := toFixed (sub value compareValue) 2 ++ "s (" ++
               getDiffPercent compareValue value ++ ")" in
      if smallIsPositive then
        lines [
          TD_LEFT;
          (if lt r lowerPercentageBoarder
           then ":green_circle: " ++ d ++ " :green_circle:" else "");
          (if lt lowerPercentageBoarder r && lt r higherPercentageBoarder
           then d else "");
          (if gt r higherPercentageBoarder
           then ":red_circle: " ++ d ++ " :red_circle:" else "");
          "</td>" ]
      else
        lines [
          TD_LEFT;
          (if lt r lowerPercentageBoarder
           then ":red_circle: " ++ d ++ " :red_circle:" else "");
          (if lt lowerPercentageBoarder r && lt r higherPercentageBoarder
           then d else "");
          (if gt r higherPercentageBoarder
           then ":green_circle: " ++ d ++ " :green_circle:" else "");
          "</td>" ]
  end.

Definition getCompareColumnBytes (value : number) (compareValue : option number)
    (lowerPercentageBoarder higherPercentageBoarder : number)
    (smallIsPositive : bool) : string :=
  match compareValue with
  | None => ""
  | Some compareValue =>
      let r := mul (div value compareValue) (ofZ 100) in
      let d := bytesToHuman (sub value compareValue) ++ " (" ++
               getDiffPercent compareValue value ++ ")" in
      if smallIsPositive then
        lines [
          TD_LEFT;
          (if lt r lowerPercentageBoarder
           then ":green_circle: " ++ d ++ " :green_circle:" else "");
          (if lt lowerPercentageBoarder r && lt r higherPercentageBoarder
           then d else "");
          (if gt r higherPercentageBoarder
           then ":red_circle: " ++ d ++ " :red_circle:" else "");
          "</td>" ]
      else
        lines [
          TD_LEFT;
          (if lt r lowerPercentageBoarder
           then ":red_circle: " ++ d ++ " :red_circle:" else "");
          (if lt lowerPercentageBoarder r && lt r higherPercentageBoarder
           then d else "");
          (if gt r higherPercentageBoarder
           then ":green_circle: " ++ d ++ " :green_circle:" else "");
          "</td>" ]
  end.

Definition getCompareColumn (value : number) (compareValue : option number)
    (lowerPercentageBoarder higherPercentageBoarder : number)
    (smallIsPositive : bool) : string :=
  match compareValue with
  | None => ""
  | Some compareValue =>
      let r := mul (div value compareValue) (ofZ 100) in
      let d := toFixed (sub value compareValue) 2 ++ " (" ++
               getDiffPercent compareValue value ++ ")" in
      if smallIsPositive then
        lines [
          TD_LEFT;
          (if lt r lowerPercentageBoarder
           then ":green_circle: " ++ d ++ " :green_circle:" else "");
          (if lt lowerPercentageBoarder r && lt r higherPercentageBoarder
           then d else "");
          (if gt r higherPercentageBoarder
           then ":red_circle: " ++ d ++ " :red_circle:" else "");
          "</td>" ]
      else
        lines [
          TD_LEFT;
          (if lt r lowerPercentageBoarder
           then ":red_circle: " ++ d ++ " :red_circle:" else "");
          (if lt lowerPercentageBoarder r && lt r higherPercentageBoarder
           then d else "");
          (if gt r higherPercentageBoarder
           then ":green_circle: " ++ d ++ " :green_circle:" else "");
          "</td>" ]
  end.

(** *** Pieces of the single report *)

Definition docLink (anchor text : string) : string :=
  "<a" ++ attr "href" (DOCS_BASE ++ "#" ++ anchor) ++ attr "target" "_blank" ++
  ">" ++ text ++ "</a>".

(** A string that may be [null] or [undefined], as a template prints it. *)
Definition nullToString (s : option string) : string :=
  match s with Some s => s | None => "null" end.

Definition undefinedToString (s : option string) : string :=
  match s with Some s => s | None => "undefined" end.

(** Truthiness of an optional string: present and not empty. *)
Definition truthyString (s : option string) : bool :=
  match s with
  | Some (String _ _) => true
  | _ => false
  end.

Definition getDebugInfoLine (details : ImageDetails) (debugInfoBytes : number)
    : string :=
  match debug_info details with
  | Some _ =>
      lines [
        "";
        "    <tr>";
        "      " ++ TD_LEFT ++ docLink "glossary-debug-info" "Debug info" ++ "</td>";
        "      " ++ TD_RIGHT ++ bytesToHuman debugInfoBytes ++ "</td>";
        "      " ++ TD_RIGHT ++ toPercent debugInfoBytes (total_bytes details) ++ "</td>";
        "      " ++ TD_LEFT ++ "</td>";
        "    </tr>" ]
  | None => ""
  end.

Definition getVersionLine (info : GeneralInfo) : string :=
  if truthyString (vendor_version info) then
    lines [
      "";
      "    <tr>";
      "      <td>" ++ docLink "glossary-java-info" "Java version" ++ "</td>";
      "      <td>" ++ nullToString (java_version info) ++ "</td>";
      "      <td>" ++ docLink "glossary-java-info" "Vendor version" ++ "</td>";
      "      <td>" ++ undefinedToString (vendor_version info) ++ "</td>";
      "    </tr>" ]
  else
    lines [
      "";
      "  <tr>";
      "    <td>" ++ docLink "glossary-version-info" "GraalVM version" ++ "</td>";
      "    <td>" ++ graalvm_version info ++ "</td>";
      "    <td>" ++ docLink "glossary-java-version-info" "Java version" ++ "</td>";
      "    <td>" ++ nullToString (java_version info) ++ "</td>";
      "  </tr>" ].

Definition getGraalLine (info : GeneralInfo) : string :=
  match graal_compiler info with
  | Some gc =>
      let isOracleGraalVM :=
        match vendor_version info with
        | Some v => truthyString (Some v) && includes v "Oracle GraalVM"
        | None => false
        end in
      let pgoSuffix :=
        if isOracleGraalVM then
          let pgoText :=
            match pgo gc with
            | Some l => String.concat "+" l
            | None => "off"
            end in
          ", " ++ docLink "recommendation-pgo" "PGO" ++ ": " ++ pgoText
        else "" in
      lines [
        "";
        "    <tr>";
        "      " ++ TD_LEFT ++ docLink "glossary-graal-compiler" "Graal compiler" ++ "</td>";
        "      <td" ++ attr "colspan" "3" ++ ">";
        "        optimization level: " ++ optimization_level gc ++ ",";
        "        target machine: " ++ march gc ++ pgoSuffix;
        "      </td>";
        "    </tr>" ]
  | None => ""
  end.

(** [resources.total_secs] is tested for truthiness: present, not 0, not NaN. *)
Definition getTotalTime (resources : ResourceUsage) : string :=
  match total_secs resources with
  | Some t => if truthy t then " in " ++ secondsToHuman t else ""
  | None => ""
  end.

Definition getTotalTimeRatio (resources : ResourceUsage) : string :=
  match total_secs resources with
  | Some t =>
      if truthy t then
        " (" ++ toPercent (gc_total_secs (garbage_collection resources)) t ++
        " of total time)"
      else ""
  | None => ""
  end.

(** [github.context], as far as the header reads it. *)
Record Context := {
  job : string;
  serverUrl : string;
  repo_owner : string;
  repo_repo : string;
  runId : number;
  runNumber : number
}.

Definition getReportHeader (info : GeneralInfo) (totalTime : string)
    (context : Context) : string :=
  lines [
    "## GraalVM Native Image Build Report";
    "";
    "`" ++ name info ++ "` generated" ++ totalTime ++ " as part of the '" ++
      job context ++ "' job in run <a" ++
      attr "href" (serverUrl context ++ "/" ++ repo_owner context ++ "/" ++
                   repo_repo context ++ "/actions/runs/" ++
                   numberToString (runId context)) ++
      attr "target" "_blank" ++ ">#" ++ numberToString (runNumber context) ++
      "</a>.";
    "" ].

Definition getEnvironmentTable (versionLine graalLine : string)
    (info : GeneralInfo) : string :=
  lines [
    "#### Environment";
    "";
    "<table>" ++ versionLine ++ graalLine;
    "  <tr>";
    "    <td>" ++ docLink "glossary-ccompiler" "C compiler" ++ "</td>";
    "    <td" ++ attr "colspan" "3" ++ ">" ++ nullToString (c_compiler info) ++ "</td>";
    "  </tr>";
    "  <tr>";
    "    <td>" ++ docLink "glossary-gc" "Garbage collector" ++ "</td>";
    "    <td" ++ attr "colspan" "3" ++ ">" ++ garbage_collector info ++ "</td>";
    "  </tr>";
    "</table>";
    "" ].

Definition getFooter : string :=
  "<em>Report generated by <a" ++
  attr "href" "https://github.com/marketplace/actions/github-action-for-graalvm" ++
  attr "target" "_blank" ++ ">setup-graalvm</a>.</em>".

(** [compareBranch] is [null] ([None]) in a single report; in a comparison it
    is [process.env.GITHUB_BASE_REF], a string or [undefined] ([Some None]). *)
Definition getCompareTableHeader (compareBranch : option (option string))
    : string :=
  match compareBranch with
  | None => ""
  | Some b =>
      "<th" ++ attr "align" "left" ++ ">Compared to <i>" ++
      undefinedToString b ++ "</i></th>"
  end.

Definition getResourcesUsageHeader (compareBranch : option (option string))
    : string :=
  match compareBranch with
  | None => ""
  | Some _ =>
      lines [
        "<thead>";
        "    <tr>";
        "      <th" ++ attr "align" "left" ++ ">Category</th>";
        "      <th" ++ attr "align" "right" ++ ">Resources</th>" ++
          getCompareTableHeader compareBranch;
        "    </tr>";
        "  </thead>" ]
  end.

Definition getResourceUsageTable (resources : ResourceUsage)
    (gcTotalTimeRatio : string) (compareResources : option ResourceUsage)
    (compareBranch : option (option string)) : string :=
  let gc := garbage_collection resources in
  let mem := memory resources in
  lines [
    "#### Resource Usage";
    "";
    "<table>" ++ getResourcesUsageHeader compareBranch;
    "  <tbody>";
    "    <tr>";
    "      " ++ TD_LEFT ++ docLink "glossary-garbage-collections" "Garbage collection" ++ "</td>";
    "      " ++ TD_LEFT ++ toFixed (gc_total_secs gc) 2 ++ "s" ++ gcTotalTimeRatio ++
      " in " ++ numberToString (gc_count gc) ++ " GCs</td>" ++
      match compareResources with
      | Some cr => getCompareColumnTime (gc_total_secs gc)
                     (Some (gc_total_secs (garbage_collection cr)))
                     (ofZ 98) (ofZ 108) true
      | None => ""
      end;
    "    </tr>";
    "    <tr>";
    "      " ++ TD_LEFT ++ docLink "glossary-peak-rss" "Peak RSS" ++ "</td>";
    "      " ++ TD_LEFT ++ bytesToHuman (peak_rss_bytes mem) ++ " (" ++
      toPercent (peak_rss_bytes mem) (system_total mem) ++ " of " ++
      bytesToHuman (system_total mem) ++ " system memory)</td>" ++
      match compareResources with
      | Some cr => getCompareColumnBytes (peak_rss_bytes mem)
                     (Some (peak_rss_bytes (memory cr))) (ofZ 98) (ofZ 108) true
      | None => ""
      end;
    "    </tr>";
    "    <tr>";
    "      " ++ TD_LEFT ++ docLink "glossary-cpu-load" "CPU load" ++ "</td>";
    "      " ++ TD_LEFT ++ toFixed (load (cpu resources)) 3 ++ " (" ++
      toPercent (load (cpu resources)) (total_cores (cpu resources)) ++ " of " ++
      numberToString (total_cores (cpu resources)) ++ " CPU cores)</td>" ++
      match compareResources with
      | Some cr => getCompareColumn (load (cpu resources)) (Some (load (cpu cr)))
                     (ofZ 98) (ofZ 108) true
      | None => ""
      end;
    "    </tr>";
    "  </tbody>";
    "</table>";
    "" ].

(** *** The tables that print counts

    [Number.prototype.toLocaleString] depends on the locale of the runner;
    the tables are stated for any such function. *)

Section Tables.

Variable toLocaleString : number -> string.

(** The template of [getAnalysisTable], one element per line. *)
Definition getAnalysisTableLines (analysis : analysisResults)
    (analysisTypes : AnalysisResult) (compareAnalysis : option analysisResults)
    (compareAnalysisType : option AnalysisResult)
    (compareBranch : option (option string)) : list string :=
  let cmpT (f : AnalysisResult -> number) :=
    match compareAnalysisType with
    | Some ct => getCompareColumn (f analysisTypes) (Some (f ct)) (ofZ 98) (ofZ 108) true
    | None => ""
    end in
  let cmpF (f : AnalysisResult -> number) :=
    match compareAnalysis with
    | Some ca => getCompareColumn (f (fields analysis)) (Some (f (fields ca)))
                   (ofZ 98) (ofZ 108) true
    | None => ""
    end in
  let cmpM (f : AnalysisResult -> number) :=
    match compareAnalysis with
    | Some ca => getCompareColumn (f (methods analysis)) (Some (f (methods ca)))
                   (ofZ 98) (ofZ 108) true
    | None => ""
    end in
  [ "#### Analysis Results";
    "";
    "<table>";
    "  <thead>";
    "    <tr>";
    "      <th" ++ attr "align" "left" ++ ">Category</th>";
    "      <th" ++ attr "align" "right" ++ ">Types</th>";
    "      <th" ++ attr "align" "right" ++ ">in %</th>" ++ getCompareTableHeader compareBranch;
    "      <th" ++ attr "align" "right" ++ ">Fields</th>";
    "      <th" ++ attr "align" "right" ++ ">in %</th>" ++ getCompareTableHeader compareBranch;
    "      <th" ++ attr "align" "right" ++ ">Methods</th>";
    "      <th" ++ attr "align" "right" ++ ">in %</th>" ++ getCompareTableHeader compareBranch;
    "    </tr>";
    "  </thead>";
    "  <tbody>";
    "    <tr>";
    "      " ++ TD_LEFT ++ docLink "glossary-reachability" "Reachable" ++ "</td>";
    "      " ++ TD_RIGHT ++ toLocaleString (reachable analysisTypes) ++ "</td>";
    "      " ++ TD_RIGHT ++ toPercent (reachable analysisTypes) (total analysisTypes) ++ "</td>" ++ cmpT reachable;
    "      " ++ TD_RIGHT ++ toLocaleString (reachable (fields analysis)) ++ "</td>";
    "      " ++ TD_RIGHT ++ toPercent (reachable (fields analysis)) (total (fields analysis)) ++ "</td>" ++ cmpF reachable;
    "      " ++ TD_RIGHT ++ toLocaleString (reachable (methods analysis)) ++ "</td>";
    "      " ++ TD_RIGHT ++ toPercent (reachable (methods analysis)) (total (methods analysis)) ++ "</td>" ++ cmpM reachable;
    "    </tr>";
    "    <tr>";
    "      " ++ TD_LEFT ++ docLink "glossary-reflection-registrations" "Reflection" ++ "</td>";
    "      " ++ TD_RIGHT ++ toLocaleString (reflection analysisTypes) ++ "</td>";
    "      " ++ TD_RIGHT ++ toPercent (reflection analysisTypes) (total analysisTypes) ++ "</td>" ++ cmpT reflection;
    "      " ++ TD_RIGHT ++ toLocaleString (reflection (fields analysis)) ++ "</td>";
    "      " ++ TD_RIGHT ++ toPercent (reflection (fields analysis)) (total (fields analysis)) ++ "</td>" ++ cmpF reflection;
    "      " ++ TD_RIGHT ++ toLocaleString (reflection (methods analysis)) ++ "</td>";
    "      " ++ TD_RIGHT ++ toPercent (reflection (methods analysis)) (total (methods analysis)) ++ "</td>" ++ cmpM reflection;
    "    </tr>";
    "    <tr>";
    "      " ++ TD_LEFT ++ docLink "glossary-jni-access-registrations" "JNI" ++ "</td>";
    "      " ++ TD_RIGHT ++ toLocaleString (jni analysisTypes) ++ "</td>";
    "      " ++ TD_RIGHT ++ toPercent (jni analysisTypes) (total analysisTypes) ++ "</td>" ++ cmpT jni;
    "      " ++ TD_RIGHT ++ toLocaleString (jni (fields analysis)) ++ "</td>";
    "      " ++ TD_RIGHT ++ toPercent (jni (fields analysis)) (total (fields analysis)) ++ "</td>" ++ cmpF jni;
    "      " ++ TD_RIGHT ++ toLocaleString (jni (methods analysis)) ++ "</td>";
    "      " ++ TD_RIGHT ++ toPercent (jni (methods analysis)) (total (methods analysis)) ++ "</td>" ++ cmpM jni;
    "    </tr>";
    "    <tr>";
    "      " ++ TD_LEFT ++ docLink "glossary-reachability" "Loaded" ++ "</td>";
    "      " ++ TD_RIGHT ++ toLocaleString (total analysisTypes) ++ "</td>";
    "      " ++ TD_RIGHT ++ "100.000%</td>" ++ cmpT total;
    "      " ++ TD_RIGHT ++ toLocaleString (total (fields analysis)) ++ "</td>";
    "      " ++ TD_RIGHT ++ "100.000%</td>" ++ cmpF total;
    "      " ++ TD_RIGHT ++ toLocaleString (total (methods analysis)) ++ "</td>";
    "      " ++ TD_RIGHT ++ "100.000%</td>" ++ cmpM total;
    "    </tr>";
    "  </tbody>";
    "</table>";
    "" ].

Definition getAnalysisTable (analysis : analysisResults)
    (analysisTypes : AnalysisResult) (compareAnalysis : option analysisResults)
    (compareAnalysisType : option AnalysisResult)
    (compareBranch : option (option string)) : string :=
  lines (getAnalysisTableLines analysis analysisTypes compareAnalysis
           compareAnalysisType compareBranch).

(** The template of [getDetailsTable], one element per line. *)
Definition getDetailsTableLines (details : ImageDetails)
    (objectCount debugInfoLine : string) (otherBytes : number)
    (compareDetails : option ImageDetails)
    (compareBranch : option (option string))
    (compareOtherBytes : option number) : list string :=
  [ "#### Image Details";
    "";
    "<table>";
    "  <thead>";
    "    <tr>";
    "      <th" ++ attr "align" "left" ++ ">Category</th>";
    "      <th" ++ attr "align" "right" ++ ">Size</th>";
    "      <th" ++ attr "align" "right" ++ ">in %</th>" ++ getCompareTableHeader compareBranch;
    "      <th" ++ attr "align" "left" ++ ">Details</th>";
    "    </tr>";
    "  </thead>";
    "  <tbody>";
    "    <tr>";
    "      " ++ TD_LEFT ++ docLink "glossary-code-area" "Code area" ++ "</td>";
    "      " ++ TD_RIGHT ++ bytesToHuman (code_bytes (code_area details)) ++ "</td>";
    "      " ++ TD_RIGHT ++
      toPercent (code_bytes (code_area details)) (total_bytes details) ++ "</td>" ++
      match compareDetails with
      | Some cd => getCompareColumnBytes (code_bytes (code_area details))
                     (Some (code_bytes (code_area cd))) (ofZ 98) (ofZ 110) true
      | None => ""
      end;
    "      " ++ TD_LEFT ++ toLocaleString (compilation_units (code_area details)) ++
      " compilation units</td>";
    "    </tr>";
    "    <tr>";
    "      " ++ TD_LEFT ++ docLink "glossary-image-heap" "Image heap" ++ "</td>";
    "      " ++ TD_RIGHT ++ bytesToHuman (heap_bytes (image_heap details)) ++ "</td>";
    "      " ++ TD_RIGHT ++
      toPercent (heap_bytes (image_heap details)) (total_bytes details) ++ "</td>" ++
      match compareDetails with
      | Some cd => getCompareColumnBytes (heap_bytes (image_heap details))
                     (Some (heap_bytes (image_heap cd))) (ofZ 98) (ofZ 110) true
      | None => ""
      end;
    "      " ++ TD_LEFT ++ objectCount ++
      bytesToHuman (res_bytes (resources (image_heap details))) ++ " for " ++
      toLocaleString (res_count (resources (image_heap details))) ++ " resources</td>";
    "    </tr>" ++ debugInfoLine;
    "    <tr>";
    "      " ++ TD_LEFT ++ docLink "glossary-other-data" "Other data" ++ "</td>";
    "      " ++ TD_RIGHT ++ bytesToHuman otherBytes ++ "</td>";
    "      " ++ TD_RIGHT ++ toPercent otherBytes (total_bytes details) ++ "</td>" ++
      match compareOtherBytes with
      | Some cob => getCompareColumnBytes otherBytes (Some cob) (ofZ 98) (ofZ 110) true
      | None => ""
      end;
    "      " ++ TD_LEFT ++ "</td>";
    "    </tr>";
    "    <tr>";
    "      " ++ TD_LEFT ++ "Total</td>";
    "      " ++ TD_RIGHT ++ "<strong>" ++ bytesToHuman (total_bytes details) ++ "</strong></td>";
    "      " ++ TD_RIGHT ++ "100.000%</td>" ++
      match compareDetails with
      | Some cd => getCompareColumnBytes (total_bytes details)
                     (Some (total_bytes cd)) (ofZ 98) (ofZ 110) true
      | None => ""
      end;
    "      " ++ TD_LEFT ++ "</td>";
    "    </tr>";
    "  </tbody>";
    "</table>";
    "" ].

Definition getDetailsTable (details : ImageDetails)
    (objectCount debugInfoLine : string) (otherBytes : number)
    (compareDetails : option ImageDetails)
    (compareBranch : option (option string))
    (compareOtherBytes : option number) : string :=
  lines (getDetailsTableLines details objectCount debugInfoLine otherBytes
           compareDetails compareBranch compareOtherBytes).

(** *** [createReport]

    [GITHUB_BASE_REF] is [process.env.GITHUB_BASE_REF]; [compareData] is
    [BuildOutput | null].  The values handed to the four section renderers
    are computed first, as the function does. *)

Record ReportParts := {
  rp_analysisTypes : AnalysisResult;
  rp_otherBytes : number;
  rp_compareBranch : option (option string);
  rp_compareDetails : option ImageDetails;
  rp_compareOtherBytes : option number;
  rp_compareResources : option ResourceUsage;
  rp_compareAnalysis : option analysisResults;
  rp_compareAnalysisTypes : option AnalysisResult
}.

Definition reportParts (GITHUB_BASE_REF : option string) (data : BuildOutput)
    (compareData : option BuildOutput) : ReportParts :=
  let analysis := analysis_results data in
  let analysisTypes :=
    match types analysis with Some t => t | None => classes analysis end in
  let details := image_details data in
  let debugInfoBytes :=
    match debug_info details with Some b => b | None => ofZ 0 end in
  let otherBytes :=
    sub (sub (sub (total_bytes details) (code_bytes (code_area details)))
             (heap_bytes (image_heap details)))
        debugInfoBytes in
  match compareData with
  | Some compareData =>
      let compareDetails := image_details compareData in
      let compareDebugInfoBytes :=
        match debug_info compareDetails with Some b => b | None => ofZ 0 end in
      let compareOtherBytes :=
        sub (sub (sub (total_bytes compareDetails)
                      (code_bytes (code_area compareDetails)))
                 (heap_bytes (image_heap compareDetails)))
            compareDebugInfoBytes in
      let compareAnalysis := analysis_results compareData in
      {| rp_analysisTypes := analysisTypes;
         rp_otherBytes := otherBytes;
         rp_compareBranch := Some GITHUB_BASE_REF;
         rp_compareDetails := Some compareDetails;
         rp_compareOtherBytes := Some compareOtherBytes;
         rp_compareResources := Some (resource_usage compareData);
         rp_compareAnalysis := Some compareAnalysis;
         rp_compareAnalysisTypes :=
           Some match types compareAnalysis with
                | Some t => t
                | None => classes compareAnalysis
                end |}
  | None =>
      {| rp_analysisTypes := analysisTypes;
         rp_otherBytes := otherBytes;
         rp_compareBranch := None;
         rp_compareDetails := None;
         rp_compareOtherBytes := None;
         rp_compareResources := None;
         rp_compareAnalysis := None;
         rp_compareAnalysisTypes := None |}
  end.

Definition createReport (context : Context) (GITHUB_BASE_REF : option string)
    (data : BuildOutput) (compareData : option BuildOutput) : string :=
  let info := general_info data in
  let analysis := analysis_results data in
  let details := image_details data in
  let objectCount :=
    match objects (image_heap details) with
    | Some count => toLocaleString count ++ " objects, "
    | None => ""
    end in
  let debugInfoBytes :=
    match debug_info details with Some b => b | None => ofZ 0 end in
  let debugInfoLine := getDebugInfoLine details debugInfoBytes in
  let versionLine := getVersionLine info in
  let graalLine := getGraalLine info in
  let resources := resource_usage data in
  let totalTime := getTotalTime resources in
  let gcTotalTimeRatio := getTotalTimeRatio resources in
  let p := reportParts GITHUB_BASE_REF data compareData in
  lines [
    getReportHeader info totalTime context;
    getEnvironmentTable versionLine graalLine info;
    getAnalysisTable analysis (rp_analysisTypes p) (rp_compareAnalysis p)
      (rp_compareAnalysisTypes p) (rp_compareBranch p);
    getDetailsTable details objectCount debugInfoLine (rp_otherBytes p)
      (rp_compareDetails p) (rp_compareBranch p) (rp_compareOtherBytes p);
    getResourceUsageTable resources gcTotalTimeRatio (rp_compareResources p)
      (rp_compareBranch p);
    getFooter ].

End Tables.

(** *** The chart comparison *)

Inductive exn :=
  | TypeError (msg : string)
  | SyntaxError.

Definition createComparedDetailsDiagramm (recentBranch baseBranch : option string)
    (detailsRecent detailsBase : ImageDetails)
    (otherBytesBase otherBytesRecent : number) : string :=
  let recent := undefinedToString recentBranch in
  let base := undefinedToString baseBranch in
  lines [
    "#### Image Details";
    "";
    "```mermaid";
    "gantt";
    "    title Native Image Size Details ";
    "    todayMarker off";
    "    dateFormat  X";
    "    axisFormat %";
    "";
    "    section Code area";
    "    " ++ recent ++ " (" ++ bytesToHuman (code_bytes (code_area detailsRecent)) ++
      "): active, 0, " ++ numberToString (code_bytes (code_area detailsRecent));
    "    " ++ base ++ " (" ++ bytesToHuman (code_bytes (code_area detailsBase)) ++
      "): 0, " ++ numberToString (code_bytes (code_area detailsBase));
    "    ";
    "    section Image heap";
    "    " ++ recent ++ " (" ++ bytesToHuman (heap_bytes (image_heap detailsRecent)) ++
      "): active, 0, " ++ numberToString (heap_bytes (image_heap detailsRecent));
    "    " ++ base ++ " (" ++ bytesToHuman (heap_bytes (image_heap detailsBase)) ++
      "): 0, " ++ numberToString (heap_bytes (image_heap detailsBase));
    "    ";
    "    section Other data";
    "    " ++ recent ++ " (" ++ bytesToHuman otherBytesRecent ++
      "): active, 0, " ++ numberToString otherBytesRecent;
    "    " ++ base ++ " (" ++ bytesToHuman otherBytesBase ++
      "): 0, " ++ numberToString otherBytesBase;
    "";
    "    section Total";
    "    " ++ recent ++ " (" ++ bytesToHuman (total_bytes detailsRecent) ++
      ")   : active, 0, " ++ numberToString (total_bytes detailsRecent);
    "    " ++ base ++ " (" ++ bytesToHuman (total_bytes detailsBase) ++
      ")   : 0, " ++ numberToString (total_bytes detailsBase);
    "```";
    "" ].

(** The two lines of one metric: the recent branch, then the base branch. *)
Definition chartPair (recent base label : string) (r b : number) : list string :=
  [ "    " ++ recent ++ " " ++ numberToString r ++ " (" ++ label ++
      "): active, 0, " ++ numberToString r;
    "    " ++ base ++ " " ++ numberToString b ++ " (" ++ label ++
      "): 0, " ++ numberToString b ].

Definition chartSection (recent base : string) (r b : AnalysisResult)
    : list string :=
  chartPair recent base "Reachable" (reachable r) (reachable b) ++
  chartPair recent base "Reflection" (reflection r) (reflection b) ++
  chartPair recent base "JNI" (jni r) (jni b) ++
  chartPair recent base "Total Loaded" (total r) (total b).

(** [analysisTypeBase] may be [undefined] ([None]): reading a property of it
    throws a [TypeError]. *)
Definition createComparedAnalysisResultsDiagramm
    (recentBranch baseBranch : option string)
    (analysisRecent : analysisResults) (analysisTypesRecent : AnalysisResult)
    (analysisBase : analysisResults) (analysisTypeBase : option AnalysisResult)
    : exn + string :=
  let recent := undefinedToString recentBranch in
  let base := undefinedToString baseBranch in
  match analysisTypeBase with
  | None => inl (TypeError "Cannot read properties of undefined (reading 'reachable')")
  | Some analysisTypeBase =>
      inr (lines (
        [ "#### Analysis Results";
          "";
          "```mermaid";
          "gantt";
          "    title Native Image Analysis Results ";
          "    todayMarker off";
          "    dateFormat  X";
          "    axisFormat %";
          "";
          "    section Types" ] ++
        chartSection recent base analysisTypesRecent analysisTypeBase ++
        [ "    ";
          "    section Fields" ] ++
        chartSection recent base (fields analysisRecent) (fields analysisBase) ++
        [ "    ";
          "    section Methods" ] ++
        chartSection recent base (methods analysisRecent) (methods analysisBase) ++
        [ "```";
          "" ]))
  end.

Definition createComparedResourceUsageDiagramm
    (recentBranch baseBranch : option string)
    (resourcesRecent resourcesBase : ResourceUsage) : string :=
  let recent := undefinedToString recentBranch in
  let base := undefinedToString baseBranch in
  let gcR := gc_total_secs (garbage_collection resourcesRecent) in
  let gcB := gc_total_secs (garbage_collection resourcesBase) in
  let rssR := peak_rss_bytes (memory resourcesRecent) in
  let rssB := peak_rss_bytes (memory resourcesBase) in
  let cpuR := load (cpu resourcesRecent) in
  let cpuB := load (cpu resourcesBase) in
  lines [
    "#### Resource Usage";
    "";
    "```mermaid";
    "gantt";
    "    title Native Image Resource Usage";
    "    todayMarker off";
    "    dateFormat  X";
    "    axisFormat %";
    "";
    "    section Garbage Collection";
    "    " ++ recent ++ " (" ++ numberToString gcR ++ "s): active, 0, 100";
    "    " ++ base ++ " (" ++ numberToString gcB ++ "s): 0, " ++ normalizeValue gcB gcR;
    "    ";
    "    section Peak RSS";
    "    " ++ recent ++ " (" ++ bytesToHuman rssR ++ "): active, 0, 100";
    "    " ++ base ++ " (" ++ bytesToHuman rssB ++ "): 0, " ++ normalizeValue rssB rssR;
    "    ";
    "    section CPU Load";
    "    " ++ recent ++ " (" ++ bytesToHuman cpuR ++ "): active, 0, 100";
    "    " ++ base ++ " (" ++ bytesToHuman cpuB ++ "): 0, " ++ normalizeValue cpuB cpuR;
    "```";
    "" ].

(** The values [createPRComparison] computes before it renders. *)
Record ComparisonParts := {
  cp_analysisTypesRecent : AnalysisResult;
  cp_analysisTypesBase : option AnalysisResult;
  cp_otherBytesRecent : number;
  cp_otherBytesBase : number
}.

Definition comparisonParts (dataRecent dataBase : BuildOutput) : ComparisonParts :=
  let analysisRecent := analysis_results dataRecent in
  let analysisTypesRecent :=
    match types analysisRecent with
    | Some t => t
    | None => classes analysisRecent
    end in
  let analysisBase := analysis_results dataBase in
  let analysisTypesBase :=
    match types analysisRecent with
    | Some _ => types analysisBase
    | None => Some (classes analysisBase)
    end in
  let detailsRecent := image_details dataRecent in
  let detailsBase := image_details dataBase in
  let debugInfoBytesRecent :=
    match debug_info detailsBase with Some b => b | None => ofZ 0 end in
  let debugInfoBytesBase :=
    match debug_info detailsBase with Some b => b | None => ofZ 0 end in
  let otherBytesRecent :=
    sub (sub (sub (total_bytes detailsRecent) (code_bytes (code_area detailsRecent)))
             (heap_bytes (image_heap detailsRecent)))
        debugInfoBytesRecent in
  let otherBytesBase :=
    sub (sub (sub (total_bytes detailsBase) (code_bytes (code_area detailsBase)))
             (heap_bytes (image_heap detailsBase)))
        debugInfoBytesBase in
  {| cp_analysisTypesRecent := analysisTypesRecent;
     cp_analysisTypesBase := analysisTypesBase;
     cp_otherBytesRecent := otherBytesRecent;
     cp_otherBytesBase := otherBytesBase |}.

(** [compareParameter] is the action input
    [native-image-pr-comparison-parameter]; the branch names come from
    [process.env.GITHUB_BASE_REF] and [process.env.GITHUB_HEAD_REF]. *)
Definition createPRComparison (compareParameterInput : string)
    (baseBranch recentBranch : option string)
    (dataRecent dataBase : BuildOutput) : exn + string :=
  let p := comparisonParts dataRecent dataBase in
  let compareParameter := toLowerCase compareParameterInput in
  let analysisPart :=
    if includes compareParameter "analysis results" then
      createComparedAnalysisResultsDiagramm recentBranch baseBranch
        (analysis_results dataRecent) (cp_analysisTypesRecent p)
        (analysis_results dataBase) (cp_analysisTypesBase p)
    else inr "" in
  match analysisPart with
  | inl e => inl e
  | inr analysisPart =>
      inr (lines [
        "## GraalVM Native Image PR comparison";
        "";
        analysisPart;
        (if includes compareParameter "image details" then
           createComparedDetailsDiagramm recentBranch baseBranch
             (image_details dataRecent) (image_details dataBase)
             (cp_otherBytesBase p) (cp_otherBytesRecent p)
         else "");
        (if includes compareParameter "resource usage" then
           createComparedResourceUsageDiagramm recentBranch baseBranch
             (resource_usage dataRecent) (resource_usage dataBase)
         else "");
        "";
        getFooter ])
  end.

(** *** [generateReports]

    The action's surroundings: its inputs, the process environment, the
    run context and the build output file (absent: [None]).  [isPREvent],
    [createPRComment], [createTree], [createRef] and
    [getPrBaseBranchMetrics] come from [../utils], which is not among the
    sources at hand: what [isPREvent], [createTree] and
    [getPrBaseBranchMetrics] answer is a parameter of the surroundings, and
    every call of a helper that acts on the outside is recorded, with the
    calls of [core] and [fs], in a trace of events. *)

Record Env := {
  getInput : string -> string;
  isPREvent : bool;
  GITHUB_BASE_REF : option string;
  GITHUB_HEAD_REF : option string;
  context : Context;
  buildOutputFile : option string;
  prBaseBranchMetrics : string;
  treeShaOf : string -> string
}.

Inductive event :=
  | Warning (msg : string)
  | ReadFile
  | SummaryAddRaw (text : string)
  | SummaryWrite
  | CreatePRComment (body : string)
  | CreateTree (content : string)
  | CreateRef (sha : string)
  | GetPrBaseBranchMetrics.

(** A computation leaves a trace and either throws or returns. *)
Definition Eff (A : Type) : Type := list event * (exn + A).

Definition ret {A} (a : A) : Eff A := ([], inr a).

Definition bind {A B} (m : Eff A) (k : A -> Eff B) : Eff B :=
  match m with
  | (t, inl e) => (t, inl e)
  | (t, inr a) => let '(t', r) := k a in ((t ++ t')%list, r)
  end.

Definition emit (e : event) : Eff unit := ([e], inr tt).

Definition lift {A} (r : exn + A) : Eff A := ([], r).

Notation "x <- m ;; k" := (bind m (fun x => k))
  (at level 61, m at next level, right associativity).
Notation "m ;;; k" := (bind m (fun _ => k))
  (at level 61, right associativity).

Definition areJobReportsEnabled (env : Env) : bool :=
  String.eqb (getInput env INPUT_NI_JOB_REPORTS) "true".

Definition arePRReportsEnabled (env : Env) : bool :=
  isPREvent env && String.eqb (getInput env INPUT_NI_PR_REPORTS) "true".

Definition arePRBaseComparisonEnabled (env : Env) : bool :=
  isPREvent env && String.eqb (getInput env INPUT_NI_PR_COMPARISON) "true".

Definition getPRComparePara (env : Env) : string :=
  getInput env INPUT_NI_PR_COMPARISON_PARAMETERS.

Section Generate.

Variable toLocaleString : number -> string.
(** [JSON.parse] at type [BuildOutput] ([None]: it throws) and
    [JSON.stringify]. *)
Variable JSON_parse : string -> option BuildOutput.
Variable JSON_stringify : BuildOutput -> string.

Definition parse (text : string) : Eff BuildOutput :=
  match JSON_parse text with
  | Some b => ret b
  | None => lift (inl SyntaxError)
  end.

Definition getPrBaseBranchMetrics (env : Env) : Eff string :=
  emit GetPrBaseBranchMetrics ;;; ret (prBaseBranchMetrics env).

Definition generateReports (env : Env) : Eff unit :=
  if areJobReportsEnabled env || arePRReportsEnabled env then
    match buildOutputFile env with
    | None =>
        emit (Warning "Unable to find build output data to create a report. Are you sure this build job has used GraalVM Native Image?")
    | Some content =>
        emit ReadFile ;;;
        buildOutput <- parse content ;;
        let report :=
          createReport toLocaleString (context env) (GITHUB_BASE_REF env)
            buildOutput None in
        (if areJobReportsEnabled env
         then emit (SummaryAddRaw report) ;;; emit SummaryWrite
         else ret tt) ;;;
        (if arePRReportsEnabled env && negb (arePRBaseComparisonEnabled env)
         then emit (CreatePRComment report)
         else ret tt) ;;;
        emit (CreateTree (JSON_stringify buildOutput)) ;;;
        emit (CreateRef (treeShaOf env (JSON_stringify buildOutput))) ;;;
        if arePRBaseComparisonEnabled env then
          metrics <- getPrBaseBranchMetrics env ;;
          compareBranchBuildOutput <- parse metrics ;;
          emit (CreatePRComment
                  (createReport toLocaleString (context env) (GITHUB_BASE_REF env)
                     buildOutput (Some compareBranchBuildOutput))) ;;;
          metrics' <- getPrBaseBranchMetrics env ;;
          prMetrics <- parse metrics' ;;
          comparison <- lift (createPRComparison (getPRComparePara env)
                                (GITHUB_BASE_REF env) (GITHUB_HEAD_REF env)
                                buildOutput prMetrics) ;;
          emit (CreatePRComment comparison)
        else ret tt
    end
  else ret tt.

End Generate.

(** *** Setting up the build: [setUpNativeImageBuildReports]

    The set-up reads and writes [process.env] and the options file.  [World]
    holds both: the environment variables and the files [fs] sees, each
    file by its path with its text (the calls of [fs] are taken to
    succeed).  [core.exportVariable] sets the variable in [process.env] as
    well as exporting it; the calls of [core] are recorded as notices.

    [NATIVE_IMAGE_CONFIG_FILE] and [BUILD_OUTPUT_JSON_PATH] are paths under
    [os.tmpdir()]; [VERSION_LATEST], [VERSION_DEV] and [MANDREL_NAMESPACE]
    come from [../constants] and [toSemVer] from [../utils], which are not
    among the sources at hand: [gteSemVer v] stands for
    [gte(toSemVer(v), '22.2.0')], [None] when [toSemVer] throws. *)

Definition NATIVE_IMAGE_CONFIG_FILE_ENV : string := "NATIVE_IMAGE_CONFIG_FILE".

Record World := {
  processEnv : string -> option string;
  files : string -> option string
}.

Inductive notice :=
  | CoreWarning (msg : string)
  | CoreInfo (msg : string)
  | ExportVariable (name value : string).

Definition setEnv (name value : string) (w : World) : World :=
  {| processEnv := fun k => if String.eqb k name then Some value else processEnv w k;
     files := files w |}.

Definition writeFile (path content : string) (w : World) : World :=
  {| processEnv := processEnv w;
     files := fun p => if String.eqb p path then Some content else files w p |}.

Definition backslash : ascii := ascii_of_nat 92.

(** [s.replace(/\\/g, '\\\\')]: every backslash becomes two. *)
Fixpoint escapeBackslashes (s : string) : string :=
  match s with
  | EmptyString => EmptyString
  | String c s' =>
      if Ascii.eqb c backslash
      then String backslash (String backslash (escapeBackslashes s'))
      else String c (escapeBackslashes s')
  end.

Section SetUp.

Variable NATIVE_IMAGE_CONFIG_FILE : string.
Variable BUILD_OUTPUT_JSON_PATH : string.
Variables VERSION_LATEST VERSION_DEV MANDREL_NAMESPACE : string.
Variable gteSemVer : string -> option bool.

(** Returns the world it leaves, what it reported and the path. *)
Definition getNativeImageOptionsFile (w : World) : World * list notice * string :=
  match processEnv w NATIVE_IMAGE_CONFIG_FILE_ENV with
  | Some optionsFile => (w, [], optionsFile)
  | None =>
      (setEnv NATIVE_IMAGE_CONFIG_FILE_ENV NATIVE_IMAGE_CONFIG_FILE w,
       [ExportVariable NATIVE_IMAGE_CONFIG_FILE_ENV NATIVE_IMAGE_CONFIG_FILE],
       NATIVE_IMAGE_CONFIG_FILE)
  end.

Definition setNativeImageOption (value : string) (w : World)
    : World * list notice :=
  let '(w1, t, optionsFile) := getNativeImageOptionsFile w in
  match files w1 optionsFile with
  | Some content => (writeFile optionsFile (content ++ " " ++ value) w1, t)
  | None => (writeFile optionsFile ("NativeImageArgs = " ++ value) w1, t)
  end.

(** [None]: [toSemVer] threw.  The disjunction that decides [isSupported]
    is evaluated from the left and stops at the first true operand. *)
Definition setUpNativeImageBuildReports (env : Env)
    (isGraalVMforJDK17OrLater : bool) (graalVMVersion : string) (w : World)
    : option (World * list notice) :=
  let isRequired := areJobReportsEnabled env || arePRReportsEnabled env in
  if negb isRequired then Some (w, [])
  else
    let isSupported :=
      if isGraalVMforJDK17OrLater then Some true
      else if String.eqb graalVMVersion VERSION_LATEST then Some true
      else if String.eqb graalVMVersion VERSION_DEV then Some true
      else if negb (startsWith graalVMVersion MANDREL_NAMESPACE)
           then gteSemVer graalVMVersion
           else Some false in
    match isSupported with
    | None => None
    | Some false =>
        Some (w, [CoreWarning
                    ("Build reports for PRs and job summaries are only available in GraalVM 22.2.0 or later. This build job uses GraalVM " ++
                     graalVMVersion ++ ".")])
    | Some true =>
        let value :=
          "-H:BuildOutputJSONFile=" ++ escapeBackslashes BUILD_OUTPUT_JSON_PATH in
        let '(w', t) := setNativeImageOption value w in
        Some (w', (CoreInfo ("DEBUGGING: " ++ value) :: t)%list)
    end.

End SetUp.

End Reports.

Import JS Reports.

(** ** Sample snapshots *)

Module Samples.

Definition counts (t r f j : Z) : AnalysisResult :=
  {| total := ofZ t; reachable := ofZ r; reflection := ofZ f; jni := ofZ j |}.

Definition info : GeneralInfo :=
  {| name := "app"; graalvm_version := "GraalVM 22.3.0";
     java_version := Some "17.0.5"; vendor_version := None;
     c_compiler := Some "gcc"; garbage_collector := "Serial GC";
     graal_compiler := None |}.

Definition analysis (ty : option AnalysisResult) : analysisResults :=
  {| classes := counts 1000 800 30 10; types := ty;
     fields := counts 2000 1500 20 5; methods := counts 9000 7000 100 50 |}.

Definition details (tot code heap : Z) (dbg : option Z) : ImageDetails :=
  {| total_bytes := ofZ tot;
     code_area := {| code_bytes := ofZ code; compilation_units := ofZ 12 |};
     image_heap := {| heap_bytes := ofZ heap; objects := None;
                      resources := {| res_count := ofZ 3; res_bytes := ofZ 64 |} |};
     debug_info := option_map ofZ dbg;
     runtime_compiled_methods := None |}.

Definition usage : ResourceUsage :=
  {| cpu := {| load := ofZ 2; total_cores := ofZ 4 |};
     garbage_collection := {| gc_count := ofZ 7; gc_total_secs := ofZ 1 |};
     memory := {| system_total := ofZ 8000000; peak_rss_bytes := ofZ 1000000 |};
     total_secs := None |}.

Definition build (ty : option AnalysisResult) (d : ImageDetails) : BuildOutput :=
  {| general_info := info; analysis_results := analysis ty;
     image_details := d; resource_usage := usage |}.

Definition ctx : Context :=
  {| job := "build"; serverUrl := "https://github.com"; repo_owner := "o";
     repo_repo := "r"; runId := ofZ 1; runNumber := ofZ 1 |}.

End Samples.

Definition missingFileWarning : string :=
  "Unable to find build output data to create a report. Are you sure this build job has used GraalVM Native Image?".

(** Job reports enabled, no build output file. *)
Definition envWithoutFile : Env :=
  {| getInput := fun k => if String.eqb k INPUT_NI_JOB_REPORTS then "true" else "";
     isPREvent := false;
     GITHUB_BASE_REF := None;
     GITHUB_HEAD_REF := None;
     context := Samples.ctx;
     buildOutputFile := None;
     prBaseBranchMetrics := "";
     treeShaOf := fun _ => "sha" |}.

(** ** Reading a table back

    The rows of a table template: the lines between a line [<tr>] and the
    next line that starts with [</tr>] (the row of the debug info, when
    there is one, rides on the closing line of the image heap row and is not
    counted). *)

Fixpoint rowsFrom (cur : option (list string)) (ls : list string)
    : list (list string) :=
  match ls with
  | [] => []
  | l :: ls' =>
      match cur with
      | None =>
          if String.eqb l "    <tr>" then rowsFrom (Some []) ls'
          else rowsFrom None ls'
      | Some cells =>
          if startsWith l "    </tr>" then rev cells :: rowsFrom None ls'
          else rowsFrom (Some (l :: cells)) ls'
      end
  end.

Definition rows (ls : list string) : list (list string) := rowsFrom None ls.

Definition row (i : nat) (ls : list string) : list string := nth i (rows ls) [].
Definition cell (j : nat) (r : list string) : string := nth j r "".

(** A right-aligned cell with what follows it on its line. *)
Definition cellLine (body rest : string) : string :=
  "      " ++ TD_RIGHT ++ body ++ "</td>" ++ rest.

(** The line holds a right-aligned cell with exactly [body] in it. *)
Definition percentCellIs (body line : string) : Prop :=
  exists rest, line = cellLine body rest.

(** What it means for a compare cell of the Image Details table to follow
    the thresholds [lo] and [hi] (smaller is better). *)
Definition classifiedWith (lo hi : Z) (line pct : string) (value base : number)
    : Prop :=
  line = cellLine pct
           (getCompareColumnBytes value (Some base) (ofZ lo) (ofZ hi) true).

(** The four shapes of a compare cell: unmarked, marked as regressed, marked
    as improved, and with none of its three lines filled. *)
Definition neutralCell (delta : string) : string :=
  lines [TD_LEFT; ""; delta; ""; "</td>"].
Definition markedLow (mark delta : string) : string :=
  lines [TD_LEFT; mark ++ " " ++ delta ++ " " ++ mark; ""; ""; "</td>"].
Definition markedHigh (mark delta : string) : string :=
  lines [TD_LEFT; ""; ""; mark ++ " " ++ delta ++ " " ++ mark; "</td>"].
Definition regressedCell (delta : string) : string :=
  markedHigh ":red_circle:" delta.
Definition improvedCell (delta : string) : string :=
  markedLow ":green_circle:" delta.
Definition emptyCell : string := lines [TD_LEFT; ""; ""; ""; "</td>"].

(** ** Vocabulary for Numbers and their decimal output *)

(** A text free of the two non-numeric spellings. *)
Definition numericText (s : string) : bool :=
  negb (includes s "NaN") && negb (includes s "Infinity").

(** The sign of an infinity or of a finite Number that is not a zero. *)
Definition negative (x : number) : bool :=
  match x with
  | S754_finite s _ _ | S754_infinity s => s
  | _ => false
  end.

Definition isZero (x : number) : bool :=
  match x with S754_zero _ => true | _ => false end.

(** A bound that is an ordinary number: finite and not a zero (98, 108, 110
    are). *)
Definition ordinary (x : number) : bool :=
  match x with S754_finite _ _ _ => true | _ => false end.

Definition isDigit (c : ascii) : bool :=
  let n := nat_of_ascii c in ((48 <=? n) && (n <=? 57))%nat.

Fixpoint allDigits (s : string) : bool :=
  match s with
  | EmptyString => true
  | String c s' => isDigit c && allDigits s'
  end.

(** Fixed notation with [f] decimals: an optional minus sign, at least one
    digit, a point and exactly [f] digits. *)
Definition fixedNotation (f : nat) (minus : bool) (s : string) : Prop :=
  exists int frac,
    s = (if minus then "-" else "") ++ int ++ "." ++ frac /\
    String.length frac = f /\
    int <> "" /\
    allDigits int = true /\ allDigits frac = true.

(** A finite Number below [10^21], where [toFixed] uses fixed notation. *)
Definition inFixedRange (m : positive) (e : Z) : bool :=
  let '(num, den) := fraction m e in negb (10 ^ 21 * den <=? num).

(** The unit [bytesToHuman] is to print, by the binary thresholds on the
    absolute value. *)
Definition unitOf (bytes : number) : string :=
  if lt (Math_abs bytes) BYTES_TO_KiB then "B"
  else if lt (Math_abs bytes) BYTES_TO_MiB then "KB"
  else if lt (Math_abs bytes) BYTES_TO_GiB then "MB"
  else "GB".

(** The same thresholds on an integer number of bytes. *)
Definition unitOfInteger (z : Z) : string :=
  if Z.abs z <? 1024 then "B"
  else if Z.abs z <? 1024 * 1024 then "KB"
  else if Z.abs z <? 1024 * 1024 * 1024 then "MB"
  else "GB".

(** The magnitude [getDiffPercent] prints. *)
Definition diffMagnitude (baseValue recentValue : number) : number :=
  mul (div (Math_abs (sub recentValue baseValue)) baseValue) (ofZ 100).

(** The other data of a snapshot: total minus code area minus image heap
    minus its own debug info (0 when absent). *)
Definition otherBytesOf (d : ImageDetails) : number :=
  sub (sub (sub (total_bytes d) (code_bytes (code_area d)))
           (heap_bytes (image_heap d)))
      match debug_info d with Some b => b | None => ofZ 0 end.

(** The two tables as [createReport] fills them for a snapshot and an
    optional baseline. *)
Definition analysisRowsOfReport (toLocaleString : number -> string)
    (GITHUB_BASE_REF : option string) (data : BuildOutput)
    (compareData : option BuildOutput) : list string :=
  let p := reportParts GITHUB_BASE_REF data compareData in
  getAnalysisTableLines toLocaleString (analysis_results data)
    (rp_analysisTypes p) (rp_compareAnalysis p) (rp_compareAnalysisTypes p)
    (rp_compareBranch p).

Definition detailsRowsOfReport (toLocaleString : number -> string)
    (GITHUB_BASE_REF : option string) (data : BuildOutput)
    (compareData : option BuildOutput) : list string :=
  let details := image_details data in
  let objectCount :=
    match objects (image_heap details) with
    | Some count => toLocaleString count ++ " objects, "
    | None => ""
    end in
  let debugInfoBytes :=
    match debug_info details with Some b => b | None => ofZ 0 end in
  let p := reportParts GITHUB_BASE_REF data compareData in
  getDetailsTableLines toLocaleString details objectCount
    (getDebugInfoLine details debugInfoBytes) (rp_otherBytes p)
    (rp_compareDetails p) (rp_compareBranch p) (rp_compareOtherBytes p).

(** Reads the addressed cell off a table template. *)
Ltac read_cell :=
  unfold cell, row, rows, cellLine, getDetailsTableLines, getAnalysisTableLines;
  simpl; reflexivity.

(** ** Vocabulary for the compare cells, the chart, the runs and the set-up *)

(** The cell the three tests of a compare column select for a ratio [r] and
    a delta text. *)
Definition bandCell (r lo hi : number) (smallIsPositive : bool) (delta : string)
    : string :=
  if lt r lo then
    markedLow (if smallIsPositive then ":green_circle:" else ":red_circle:") delta
  else if gt r hi then
    markedHigh (if smallIsPositive then ":red_circle:" else ":green_circle:") delta
  else if lt lo r && lt r hi then neutralCell delta
  else emptyCell.

(** The header cell above a percent column, with what follows it on its
    line, and the header cell of the compare column. *)
Definition percentHeader (rest : string) : string :=
  "      <th" ++ attr "align" "right" ++ ">in %</th>" ++ rest.

Definition comparedTo (branch : string) : string :=
  "<th" ++ attr "align" "left" ++ ">Compared to <i>" ++ branch ++ "</i></th>".

(** The category a snapshot's Types rows are taken from. *)
Definition typesOf (b : BuildOutput) : AnalysisResult :=
  match types (analysis_results b) with
  | Some t => t
  | None => classes (analysis_results b)
  end.

Definition typesMissing (a : analysisResults) : bool :=
  match types a with Some _ => false | None => true end.

(** The analysis chart is asked for, the recent snapshot has [types] and
    the base snapshot has none. *)
Definition chartThrows (compareParameterInput : string)
    (dataRecent dataBase : BuildOutput) : bool :=
  includes (toLowerCase compareParameterInput) "analysis results" &&
  negb (typesMissing (analysis_results dataRecent)) &&
  typesMissing (analysis_results dataBase).

(** The events that touch the pull request. *)
Definition reachesPullRequest (e : event) : bool :=
  match e with
  | CreatePRComment _ | GetPrBaseBranchMetrics => true
  | _ => false
  end.

(** What a run does before it turns to the base branch. *)
Definition summaryEvents (env : Env) (report : string) : list event :=
  if areJobReportsEnabled env then [SummaryAddRaw report; SummaryWrite] else [].

Definition storeEvents (env : Env) (json : string) : list event :=
  [CreateTree json; CreateRef (treeShaOf env json)].

(** The path [getNativeImageOptionsFile] answers in a world. *)
Definition optionsPath (NATIVE_IMAGE_CONFIG_FILE : string) (w : World) : string :=
  match processEnv w NATIVE_IMAGE_CONFIG_FILE_ENV with
  | Some f => f
  | None => NATIVE_IMAGE_CONFIG_FILE
  end.



(** *** Sample runs *)

Module Runs.

Definition inputs (job pr comparison : bool) (parameter : string)
    (k : string) : string :=
  let flag (b : bool) := if b then "true" else "false" in
  if String.eqb k INPUT_NI_JOB_REPORTS then flag job
  else if String.eqb k INPUT_NI_PR_REPORTS then flag pr
  else if String.eqb k INPUT_NI_PR_COMPARISON then flag comparison
  else if String.eqb k INPUT_NI_PR_COMPARISON_PARAMETERS then parameter
  else "".

Definition env (job pr comparison pullRequest : bool) (file : option string)
    : Env :=
  {| getInput := inputs job pr comparison "image details";
     isPREvent := pullRequest;
     GITHUB_BASE_REF := Some "main";
     GITHUB_HEAD_REF := Some "feature";
     context := Samples.ctx;
     buildOutputFile := file;
     prBaseBranchMetrics := "base";
     treeShaOf := fun _ => "sha" |}.

Definition recent : BuildOutput :=
  Samples.build None (Samples.details 1100 400 300 None).

Definition base : BuildOutput :=
  Samples.build None (Samples.details 1000 400 300 None).

(** A parser that knows two texts. *)
Definition parse (text : string) : option BuildOutput :=
  if String.eqb text "recent" then Some recent
  else if String.eqb text "base" then Some base
  else None.

Definition stringify (b : BuildOutput) : string := "json".

Definition timed : ResourceUsage :=
  {| cpu := cpu Samples.usage;
     garbage_collection := garbage_collection Samples.usage;
     memory := memory Samples.usage;
     total_secs := Some (ofZ 90) |}.

Definition emptyWorld : World :=
  {| processEnv := fun _ => None; files := fun _ => None |}.

End Runs.

(** * Properties *)

(** ** Facts about decimal output *)

Section Strings.

Lemma length_app (s t : string) :
  String.length (s ++ t) = (String.length s + String.length t)%nat.
Proof. induction s as [ | c s IH]; simpl; [ reflexivity | now rewrite IH ]. Qed.

Lemma length_zeros (n : nat) : String.length (zeros n) = n.
Proof. induction n; simpl; congruence. Qed.

Lemma allDigits_app (s t : string) :
  allDigits (s ++ t) = allDigits s && allDigits t.
Proof.
  induction s as [ | c s IH]; simpl; [ reflexivity | ].
  now rewrite IH, andb_assoc.
Qed.

Lemma allDigits_zeros (n : nat) : allDigits (zeros n) = true.
Proof. induction n; simpl; auto. Qed.

Lemma length_substring (s : string) :
  forall n m, (n + m <= String.length s)%nat ->
              String.length (substring n m s) = m.
Proof.
  induction s as [ | c s IH]; intros n m H; simpl in H.
  - destruct n, m; simpl; try reflexivity; lia.
  - destruct n as [ | n].
    + destruct m as [ | m]; simpl; [ reflexivity | ].
      rewrite (IH 0%nat m); [ reflexivity | simpl; lia ].
    + simpl. apply IH. lia.
Qed.

Lemma allDigits_substring (s : string) :
  forall n m, allDigits s = true -> allDigits (substring n m s) = true.
Proof.
  induction s as [ | c s IH]; intros n m H.
  - destruct n, m; reflexivity.
  - simpl in H. apply andb_prop in H. destruct H as [Hc Hs].
    destruct n as [ | n].
    + destruct m as [ | m]; simpl; [ reflexivity | ].
      rewrite Hc. simpl. now apply IH.
    + simpl. now apply IH.
Qed.

Lemma allDigits_string_of_uint (d : Decimal.uint) :
  allDigits (NilEmpty.string_of_uint d) = true.
Proof. induction d; simpl; auto. Qed.

Lemma allDigits_digits (n : Z) : allDigits (digits n) = true.
Proof.
  unfold digits, NilZero.string_of_uint.
  destruct (N.to_uint (Z.to_N n)) eqn:E;
    try (rewrite <- E at 1; apply allDigits_string_of_uint); reflexivity.
Qed.

End Strings.

Section ToFixed.

(** The digits of [n], padded on the left to at least [f + 1] characters and
    split before the last [f]. *)
Lemma split_padded (f : nat) (n : Z) :
  let ds := digits n in
  let padded := zeros (S f - String.length ds) ++ ds in
  let k := String.length padded in
  String.length (substring (k - f) f padded) = f /\
  substring 0 (k - f) padded <> "" /\
  allDigits (substring 0 (k - f) padded) = true /\
  allDigits (substring (k - f) f padded) = true.
Proof.
  intros ds padded k.
  assert (Hk : (S f <= k)%nat).
  { subst k padded. rewrite length_app, length_zeros. lia. }
  assert (Hd : allDigits padded = true).
  { subst padded. rewrite allDigits_app, allDigits_zeros. apply allDigits_digits. }
  repeat split.
  - apply length_substring. lia.
  - intros E. apply (f_equal String.length) in E.
    rewrite length_substring in E by lia. simpl in E. lia.
  - now apply allDigits_substring.
  - now apply allDigits_substring.
Qed.

Lemma toFixed_finite (s : bool) (m : positive) (e : Z) (f : nat) :
  inFixedRange m e = true ->
  fixedNotation (S f) s (toFixed (S754_finite s m e) (S f)).
Proof.
  unfold inFixedRange, toFixed. destruct (fraction m e) as [num den].
  intros H. apply negb_true_iff in H. rewrite H.
  set (n := (2 * num * 10 ^ Z.of_nat (S f) + den) / (2 * den)).
  destruct (split_padded (S f) n) as (Hlen & Hne & Hint & Hfrac).
  cbv zeta in Hlen, Hne, Hint, Hfrac.
  eexists _, _. split; [ reflexivity | ]. auto.
Qed.

Lemma toFixed_zero (s : bool) (f : nat) :
  fixedNotation (S f) false (toFixed (S754_zero s) (S f)).
Proof.
  exists "0", (zeros (S f)). repeat split.
  - apply length_zeros.
  - discriminate.
  - apply allDigits_zeros.
Qed.

End ToFixed.

(** ** Facts about binary64 arithmetic *)

Section Binary64.

Lemma digits2_pos_bound (m : positive) :
  Zpos m < 2 ^ Zpos (digits2_pos m).
Proof.
  induction m as [m IH | m IH | ]; simpl digits2_pos;
    rewrite ?Pos2Z.inj_succ, ?Z.pow_succ_r by lia; lia.
Qed.

(** A well-formed finite Number has at most 53 significant bits, and exactly
    53 unless its exponent is the least one. *)
Lemma bounded_digits (m : positive) (e : Z) :
  bounded prec emax m e = true ->
  Zpos (digits2_pos m) <= 53 /\
  (-1074 < e -> digits2_pos m = 53%positive).
Proof.
  unfold bounded, canonical_mantissa, fexp, SpecFloat.emin, prec, emax.
  intros H. apply andb_prop in H. destruct H as [H _].
  apply Z.eqb_eq in H. split; [ lia | intros He ].
  apply Pos2Z.inj. lia.
Qed.

Lemma bounded_mantissa (m : positive) (e : Z) :
  bounded prec emax m e = true -> Zpos m < 2 ^ 53.
Proof.
  intros H. apply bounded_digits in H. destruct H as [H _].
  pose proof (digits2_pos_bound m) as Hm.
  assert (2 ^ Zpos (digits2_pos m) <= 2 ^ 53)
    by (apply Z.pow_le_mono_r; lia).
  lia.
Qed.

Lemma inFixedRange_small (m : positive) (e : Z) :
  Zpos m < 2 ^ 53 -> e <= 16 -> inFixedRange m e = true.
Proof.
  intros Hm He. unfold inFixedRange, fraction.
  destruct (0 <=? e) eqn:E; apply negb_true_iff, Z.leb_gt.
  - apply Z.leb_le in E. rewrite Z.shiftl_mul_pow2 by lia.
    assert (0 < 2 ^ e <= 2 ^ 16)
      by (split; [ apply Z.pow_pos_nonneg; lia | apply Z.pow_le_mono_r; lia ]).
    change (2 ^ 53) with 9007199254740992 in Hm.
    change (2 ^ 16) with 65536 in H.
    change (10 ^ 21 * 1) with 1000000000000000000000. nia.
  - apply Z.leb_gt in E. rewrite Z.shiftl_mul_pow2 by lia.
    assert (0 < 2 ^ (- e)) by (apply Z.pow_pos_nonneg; lia).
    change (2 ^ 53) with 9007199254740992 in Hm.
    change (10 ^ 21) with 1000000000000000000000. nia.
Qed.

(** Comparing two positive finite Numbers compares their exponents first. *)
Lemma lt_exponent (m m' : positive) (e e' : Z) :
  lt (S754_finite false m e) (S754_finite false m' e') = true -> e <= e'.
Proof.
  unfold lt, SFltb. simpl.
  destruct (Z.compare_spec e e'); try lia; discriminate.
Qed.

Lemma not_lt_exponent (m m' : positive) (e e' : Z) :
  lt (S754_finite false m e) (S754_finite false m' e') = false -> e' <= e.
Proof.
  unfold lt, SFltb. simpl.
  destruct (Z.compare_spec e e'); try lia; discriminate.
Qed.

(** Dividing a normal Number by a power of two only moves its exponent. *)
Lemma div_core_pow2 (m : positive) (e ec : Z) :
  digits2_pos m = 53%positive ->
  -1074 <= e - ec - 53 ->
  SFdiv_core_binary prec emax (Zpos m) e 4503599627370496 ec =
    (Zpos m~0, e - ec - 53, loc_Exact).
Proof.
  intros Hd He. unfold SFdiv_core_binary, Zdigits2. rewrite Hd.
  change (Z.pos (digits2_pos 4503599627370496)) with 53.
  replace (Z.min (fexp prec emax (53 + e - (53 + ec))) (e - ec)) with (e - ec - 53)
    by (unfold fexp, SpecFloat.emin, prec, emax; lia).
  replace (e - ec - (e - ec - 53)) with 53 by lia.
  cbv zeta iota beta.
  assert (Hq : Z.div_eucl (Z.shiftl (Z.pos m) 53) 4503599627370496 = (Z.pos m~0, 0)).
  { rewrite Z.shiftl_mul_pow2 by lia.
    pose proof (Z.div_eucl_eq (Z.pos m * 2 ^ 53) 4503599627370496 ltac:(lia)) as H.
    pose proof (Z.mod_pos_bound (Z.pos m * 2 ^ 53) 4503599627370496 ltac:(lia)) as Hb.
    unfold Z.modulo in Hb.
    destruct (Z.div_eucl (Z.pos m * 2 ^ 53) 4503599627370496) as [q r].
    change (2 ^ 53) with 9007199254740992 in *.
    assert (r = 0) by lia. subst r.
    f_equal. lia. }
  change IntDef.Z.div_eucl with Z.div_eucl. change IntDef.Z.shiftl with Z.shiftl.
  rewrite Hq. reflexivity.
Qed.

Lemma round_exact (s : bool) (m : positive) (E : Z) :
  digits2_pos m = 53%positive ->
  -1074 <= E + 1 <= 971 ->
  binary_round_aux prec emax s (Zpos m~0) E loc_Exact = S754_finite s m (E + 1).
Proof.
  intros Hd HE. unfold binary_round_aux, shr_fexp, Zdigits2.
  simpl digits2_pos. rewrite Hd. 
  change (Z.pos (Pos.succ 53)) with 54.
  replace (fexp prec emax (54 + E) - E) with 1
    by (unfold fexp, SpecFloat.emin, prec, emax; lia).
  cbn [shr iter_pos shr_1 shr_record_of_loc loc_of_shr_record
       round_nearest_even shr_m Zdigits2 Z.add].
  cbn [orb round_nearest_even]. rewrite Hd.
  replace (fexp prec emax (53 + (E + 1)) - (E + 1)) with 0
    by (unfold fexp, SpecFloat.emin, prec, emax; lia).
  cbn [shr shr_m].
  replace (E + 1 <=? emax - prec) with true
    by (symmetry; apply Z.leb_le; unfold emax, prec; lia).
  reflexivity.
Qed.

Lemma div_pow2 (s : bool) (m : positive) (e ec : Z) :
  digits2_pos m = 53%positive ->
  -1073 <= e - ec - 52 <= 971 ->
  div (S754_finite s m e) (S754_finite false 4503599627370496 ec) =
    S754_finite s m (e - ec - 52).
Proof.
  intros Hd He. unfold div, SFdiv.
  rewrite div_core_pow2 by (auto; lia).
  rewrite xorb_false_r, round_exact by (auto; lia).
  f_equal. lia.
Qed.

Lemma digits2_pos_lower (m : positive) :
  2 ^ (Zpos (digits2_pos m) - 1) <= Zpos m.
Proof.
  induction m as [m IH | m IH | ]; simpl digits2_pos;
    rewrite ?Pos2Z.inj_succ;
    try (replace (Z.succ (Z.pos (digits2_pos m)) - 1)
           with (Z.succ (Z.pos (digits2_pos m) - 1)) by lia;
         rewrite Z.pow_succ_r by lia; lia).
  reflexivity.
Qed.

Lemma digits2_pos_shift (p n : positive) :
  digits2_pos (Pos.iter xO p n) = (digits2_pos p + n)%positive.
Proof.
  induction n as [ | n IH] using Pos.peano_ind.
  - simpl. lia.
  - rewrite Pos.iter_succ. simpl. rewrite IH. lia.
Qed.

(** The Number of a positive integer below [2^53]: 53 significant bits and
    the exponent that the bit length of the integer fixes. *)
Lemma ofZ_pos (s : bool) (p : positive) :
  Zpos p < 2 ^ 53 ->
  exists m,
    binary_round prec emax s p 0 =
      S754_finite s m (Zpos (digits2_pos p) - 53) /\
    digits2_pos m = 53%positive.
Proof.
  intros Hp.
  assert (Hd : Zpos (digits2_pos p) <= 53).
  { pose proof (digits2_pos_lower p) as Hl.
    destruct (Z_le_gt_dec (Zpos (digits2_pos p)) 53) as [ | Hgt]; [ assumption | ].
    assert (2 ^ 53 <= 2 ^ (Zpos (digits2_pos p) - 1))
      by (apply Z.pow_le_mono_r; lia).
    lia. }
  unfold binary_round, shl_align.
  replace (fexp prec emax (Z.pos (digits2_pos p) + 0))
    with (Zpos (digits2_pos p) - 53)
    by (unfold fexp, SpecFloat.emin, prec, emax; lia).
  set (d := digits2_pos p) in *.
  assert (Hfin : forall m, digits2_pos m = 53%positive ->
            binary_round_aux prec emax s (Zpos m) (Zpos d - 53) loc_Exact =
              S754_finite s m (Zpos d - 53)).
  { intros m Hm. unfold binary_round_aux, shr_fexp, Zdigits2. rewrite Hm.
    replace (fexp prec emax (53 + (Zpos d - 53)) - (Zpos d - 53)) with 0
      by (unfold fexp, SpecFloat.emin, prec, emax; lia).
    cbn [shr shr_record_of_loc loc_of_shr_record round_nearest_even shr_m
         Zdigits2].
    rewrite Hm.
    replace (fexp prec emax (53 + (Zpos d - 53)) - (Zpos d - 53)) with 0
      by (unfold fexp, SpecFloat.emin, prec, emax; lia).
    cbn [shr shr_m].
    replace (Zpos d - 53 <=? emax - prec) with true
      by (symmetry; apply Z.leb_le; unfold emax, prec; lia).
    reflexivity. }
  destruct (Zpos d - 53 - 0) as [ | q | q] eqn:E; try lia.
  - exists p. split; [ | apply Pos2Z.inj; fold d; lia ].
    replace 0 with (Zpos d - 53) at 1 by lia.
    apply Hfin. apply Pos2Z.inj; fold d; lia.
  - exists (Pos.iter xO p q).
    assert (Hq : digits2_pos (Pos.iter xO p q) = 53%positive).
    { rewrite digits2_pos_shift. fold d. lia. }
    split; [ now apply Hfin | exact Hq ].
Qed.

Lemma normal_mantissa (m : positive) :
  digits2_pos m = 53%positive -> (4503599627370496 <= m)%positive.
Proof.
  intros Hd. pose proof (digits2_pos_lower m) as Hl. rewrite Hd in Hl.
  change (2 ^ (53 - 1)) with 4503599627370496 in Hl. clear Hd. lia.
Qed.

(** Against a mantissa that is not larger, two positive finite Numbers are
    ordered by their exponents. *)
Lemma lt_by_exponent (m c : positive) (e ec : Z) :
  (c <= m)%positive ->
  lt (S754_finite false m e) (S754_finite false c ec) = (e <? ec).
Proof.
  intros Hc. unfold lt, SFltb, SFcompare.
  destruct (Z.compare_spec e ec) as [E | E | E].
  - subst. rewrite Z.ltb_irrefl.
    change (Pos.compare_cont Eq m c) with (Pos.compare m c).
    destruct (Pos.compare_spec m c); try reflexivity. lia.
  - symmetry. apply Z.ltb_lt. lia.
  - symmetry. apply Z.ltb_ge. lia.
Qed.

(** Against a power of two a normal Number is decided by its exponent. *)
Lemma lt_pow2 (m : positive) (e ec : Z) :
  digits2_pos m = 53%positive ->
  lt (S754_finite false m e) (S754_finite false 4503599627370496 ec) =
    (e <? ec).
Proof. intros Hd. apply lt_by_exponent. now apply normal_mantissa. Qed.

(** The bit length decides on which side of a power of two an integer is. *)
Lemma digits_below (p : positive) (k : Z) :
  0 <= k -> (Zpos (digits2_pos p) <=? k) = (Zpos p <? 2 ^ k).
Proof.
  intros Hk. pose proof (digits2_pos_bound p) as Hu.
  pose proof (digits2_pos_lower p) as Hl.
  destruct (Z.leb_spec (Zpos (digits2_pos p)) k) as [H | H]; symmetry.
  - apply Z.ltb_lt.
    assert (2 ^ Zpos (digits2_pos p) <= 2 ^ k) by (apply Z.pow_le_mono_r; lia).
    lia.
  - apply Z.ltb_ge.
    assert (2 ^ k <= 2 ^ (Zpos (digits2_pos p) - 1))
      by (apply Z.pow_le_mono_r; lia).
    lia.
Qed.

(** What [ofZ] gives for an integer of absolute value below [2^53] that is
    not 0. *)
Lemma ofZ_nonzero (z : Z) :
  z <> 0 -> Z.abs z < 2 ^ 53 ->
  exists m e,
    ofZ z = S754_finite (z <? 0) m e /\
    digits2_pos m = 53%positive /\
    -52 <= e <= 0 /\
    forall k, 0 <= k -> (e + 53 <=? k) = (Z.abs z <? 2 ^ k).
Proof.
  intros Hz Hlt. unfold ofZ, binary_normalize.
  destruct z as [ | p | p]; [ congruence | | ];
    destruct (ofZ_pos (Zpos p <? 0) p Hlt) as (m & Hm & Hd);
    destruct (ofZ_pos (Zneg p <? 0) p Hlt) as (m' & Hm' & Hd').
  - exists m, (Zpos (digits2_pos p) - 53). split; [ exact Hm | ].
    split; [ exact Hd | ].
    pose proof (digits2_pos_lower p). pose proof (digits2_pos_bound p).
    assert (Zpos (digits2_pos p) <= 53).
    { destruct (Z_le_gt_dec (Zpos (digits2_pos p)) 53); [ assumption | ].
      assert (2 ^ 53 <= 2 ^ (Zpos (digits2_pos p) - 1))
        by (apply Z.pow_le_mono_r; lia).
      simpl Z.abs in Hlt. lia. }
    split; [ lia | ]. intros k Hk.
    replace (Zpos (digits2_pos p) - 53 + 53) with (Zpos (digits2_pos p)) by lia.
    now apply digits_below.
  - exists m', (Zpos (digits2_pos p) - 53). split; [ exact Hm' | ].
    split; [ exact Hd' | ].
    pose proof (digits2_pos_lower p). pose proof (digits2_pos_bound p).
    assert (Zpos (digits2_pos p) <= 53).
    { destruct (Z_le_gt_dec (Zpos (digits2_pos p)) 53); [ assumption | ].
      assert (2 ^ 53 <= 2 ^ (Zpos (digits2_pos p) - 1))
        by (apply Z.pow_le_mono_r; lia).
      simpl Z.abs in Hlt. lia. }
    split; [ lia | ]. intros k Hk.
    replace (Zpos (digits2_pos p) - 53 + 53) with (Zpos (digits2_pos p)) by lia.
    now apply digits_below.
Qed.

Lemma lt_smaller_exponent (m m' : positive) (e e' : Z) :
  e < e' -> lt (S754_finite false m e) (S754_finite false m' e') = true.
Proof.
  intros H. unfold lt, SFltb, SFcompare.
  destruct (Z.compare_spec e e'); try lia; reflexivity.
Qed.

End Binary64.

(** On Numbers other than NaN, [x < y] fails exactly when [x >= y]. *)
Lemma lt_negb_ge (x y : number) :
  isNaN x = false -> isNaN y = false -> lt x y = negb (ge x y).
Proof.
  unfold lt, ge, SFltb, SFleb.
  destruct x as [sx | sx | | sx mx ex], y as [sy | sy | | sy my ey];
    try discriminate; intros _ _; simpl;
    try (destruct sx; reflexivity); try (destruct sy; reflexivity);
    try (destruct sx, sy; reflexivity).
  assert (Hm : Pos.compare_cont Eq mx my = CompOpp (Pos.compare_cont Eq my mx))
    by (symmetry; apply (Pos.compare_cont_antisym my mx Eq)).
  destruct sx, sy; try reflexivity;
    rewrite (Z.compare_antisym ex ey);
    destruct (ex ?= ey); simpl; try reflexivity;
    rewrite Hm; destruct (Pos.compare_cont Eq my mx); reflexivity.
Qed.

(** [<] is a strict order. *)
Section Order.

Lemma lt_asym (x y : number) : lt x y = true -> lt y x = false.
Proof.
  intros H.
  assert (Hx : isNaN x = false) by (destruct x, y; try reflexivity; discriminate).
  assert (Hy : isNaN y = false) by (destruct x, y; try reflexivity; discriminate).
  rewrite (lt_negb_ge y x Hy Hx). unfold ge, SFleb. unfold lt, SFltb in H.
  destruct (SFcompare x y) as [[ | | ] | ]; try discriminate. reflexivity.
Qed.

Lemma compare_cont_trans (a b c : positive) :
  Pos.compare_cont Eq a b = Lt -> Pos.compare_cont Eq b c = Lt ->
  Pos.compare_cont Eq a c = Lt.
Proof.
  change (Pos.compare_cont Eq a b) with (Pos.compare a b).
  change (Pos.compare_cont Eq b c) with (Pos.compare b c).
  change (Pos.compare_cont Eq a c) with (Pos.compare a c).
  rewrite !Pos.compare_lt_iff. lia.
Qed.

Lemma compare_cont_trans_gt (a b c : positive) :
  Pos.compare_cont Eq a b = Gt -> Pos.compare_cont Eq b c = Gt ->
  Pos.compare_cont Eq a c = Gt.
Proof.
  change (Pos.compare_cont Eq a b) with (Pos.compare a b).
  change (Pos.compare_cont Eq b c) with (Pos.compare b c).
  change (Pos.compare_cont Eq a c) with (Pos.compare a c).
  rewrite !Pos.compare_gt_iff. lia.
Qed.

Lemma lt_trans (x y z : number) :
  lt x y = true -> lt y z = true -> lt x z = true.
Proof.
  unfold lt, SFltb, SFcompare.
  destruct x as [sx | sx | | sx mx ex], y as [sy | sy | | sy my ey],
           z as [sz | sz | | sz mz ez];
    try discriminate; try (destruct sx, sy, sz; (reflexivity || discriminate)).
  destruct sx, sy, sz; try reflexivity; try discriminate;
    destruct (Z.compare_spec ex ey) as [E1 | E1 | E1]; try discriminate;
    destruct (Z.compare_spec ey ez) as [E2 | E2 | E2]; try discriminate;
    destruct (Z.compare_spec ex ez) as [E3 | E3 | E3]; try lia;
    try reflexivity; subst; intros H1 H2.
  - destruct (Pos.compare_cont Eq mx my) eqn:A; try discriminate.
    destruct (Pos.compare_cont Eq my mz) eqn:B; try discriminate.
    now rewrite (compare_cont_trans_gt mx my mz A B).
  - destruct (Pos.compare_cont Eq mx my) eqn:A; try discriminate.
    destruct (Pos.compare_cont Eq my mz) eqn:B; try discriminate.
    now rewrite (compare_cont_trans mx my mz A B).
Qed.

End Order.

(** Signs of quotients and remainders. *)
Section Signs.

(** Rounding keeps the sign it is given. *)
Lemma binary_round_aux_nonneg (m e : Z) (l : location) :
  negative (binary_round_aux prec emax false m e l) = false.
Proof.
  unfold binary_round_aux.
  destruct (shr_fexp prec emax m e l) as [mrs' e'].
  destruct (shr_fexp prec emax _ e' loc_Exact) as [mrs'' e''].
  destruct (shr_m mrs'') as [ | p | p]; try reflexivity.
  destruct (e'' <=? emax - prec); reflexivity.
Qed.

Lemma binary_normalize_nonneg (z e : Z) :
  0 <= z -> negative (binary_normalize prec emax z e false) = false.
Proof.
  intros Hz. destruct z as [ | p | p]; [ reflexivity | | lia ].
  unfold binary_normalize, binary_round.
  destruct (shl_align p e _) as [mz ez]. apply binary_round_aux_nonneg.
Qed.

Lemma div_nonneg (x : number) (my : positive) (ey : Z) :
  negative x = false -> negative (div x (S754_finite false my ey)) = false.
Proof.
  destruct x as [sx | sx | | sx mx ex]; simpl; intros Hx; subst;
    try reflexivity.
  unfold div, SFdiv.
  destruct (SFdiv_core_binary prec emax (Z.pos mx) ex (Z.pos my) ey)
    as [[mz ez] lz].
  apply binary_round_aux_nonneg.
Qed.

Lemma rem_nonneg (x y : number) :
  negative x = false -> negative (rem x y) = false.
Proof.
  destruct x as [sx | sx | | sx mx ex], y as [sy | sy | | sy my ey];
    simpl; intros Hx; subst; try reflexivity.
  apply binary_normalize_nonneg. simpl cond_Zopp.
  apply Z.mod_pos_bound. rewrite Z.shiftl_mul_pow2 by lia.
  apply Z.mul_pos_pos; [ lia | apply Z.pow_pos_nonneg; lia ].
Qed.

(** On a Number that is not negative, truncating is rounding down. *)
Lemma trunc_floor (x : number) :
  negative x = false -> Math_trunc x = Math_floor x.
Proof.
  destruct x as [s | s | | s m e]; simpl; intros H; subst; reflexivity.
Qed.

Lemma ge_zero_nonneg (x : number) :
  ge x (ofZ 0) = true -> negative x = false.
Proof.
  destruct x as [s | s | | s m e]; try reflexivity; destruct s;
    try reflexivity; discriminate.
Qed.

End Signs.

(** ** Reading the two tables

    While cells are read off a template, what the cells hold stays folded. *)

Opaque toPercent getCompareColumnBytes getCompareColumn bytesToHuman docLink
  getCompareTableHeader.

Section DetailsPolicy.

Variable toLocaleString : number -> string.
Variables (details cd : ImageDetails) (objectCount debugInfoLine : string).
Variables (otherBytes cob : number) (compareBranch : option (option string)).

Let table : list string :=
  getDetailsTableLines toLocaleString details objectCount debugInfoLine
    otherBytes (Some cd) compareBranch (Some cob).

Lemma details_code_row :
  cell 2 (row 1 table) =
  cellLine (toPercent (code_bytes (code_area details)) (total_bytes details))
    (getCompareColumnBytes (code_bytes (code_area details))
       (Some (code_bytes (code_area cd))) (ofZ 98) (ofZ 110) true).
Proof. subst table; read_cell. Qed.

Lemma details_heap_row :
  cell 2 (row 2 table) =
  cellLine (toPercent (heap_bytes (image_heap details)) (total_bytes details))
    (getCompareColumnBytes (heap_bytes (image_heap details))
       (Some (heap_bytes (image_heap cd))) (ofZ 98) (ofZ 110) true).
Proof. subst table; read_cell. Qed.

Lemma details_other_row :
  cell 2 (row 3 table) =
  cellLine (toPercent otherBytes (total_bytes details))
    (getCompareColumnBytes otherBytes (Some cob) (ofZ 98) (ofZ 110) true).
Proof. subst table; read_cell. Qed.

Lemma details_total_row :
  cell 2 (row 4 table) =
  cellLine "100.000%"
    (getCompareColumnBytes (total_bytes details) (Some (total_bytes cd))
       (ofZ 98) (ofZ 110) true).
Proof. subst table; read_cell. Qed.

Lemma details_row_count : List.length (rows table) = 5%nat.
Proof. subst table; read_cell. Qed.

End DetailsPolicy.

(** The Types cells of the tabular comparison of two snapshots without
    [types]: counts and ratios of each snapshot's own [classes]. *)
Lemma report_types_from_classes :
  forall toLocaleString ref data base,
    types (analysis_results data) = None ->
    types (analysis_results base) = None ->
    let A := analysisRowsOfReport toLocaleString ref data (Some base) in
    let c := classes (analysis_results data) in
    let b := classes (analysis_results base) in
    let count (f : AnalysisResult -> number) :=
      "      " ++ TD_RIGHT ++ toLocaleString (f c) ++ "</td>" in
    let compared (f : AnalysisResult -> number) :=
      getCompareColumn (f c) (Some (f b)) (ofZ 98) (ofZ 108) true in
    (cell 1 (row 1 A) = count reachable /\
     cell 2 (row 1 A) =
       cellLine (toPercent (reachable c) (total c)) (compared reachable)) /\
    (cell 1 (row 2 A) = count reflection /\
     cell 2 (row 2 A) =
       cellLine (toPercent (reflection c) (total c)) (compared reflection)) /\
    (cell 1 (row 3 A) = count jni /\
     cell 2 (row 3 A) =
       cellLine (toPercent (jni c) (total c)) (compared jni)) /\
    (cell 1 (row 4 A) = count total /\
     cell 2 (row 4 A) = cellLine "100.000%" (compared total)).
Proof.
  intros tls ref data base Hd Hb A c b count compared.
  subst A c b count compared.
  unfold analysisRowsOfReport, reportParts. cbv zeta. rewrite Hd, Hb.
  cbn [rp_analysisTypes rp_compareAnalysis rp_compareAnalysisTypes
       rp_compareBranch].
  repeat split; read_cell.
Qed.

Lemma analysis_table_percent_cells :
  forall toLocaleString analysis analysisTypes compareAnalysis
         compareAnalysisType compareBranch,
    let table :=
      getAnalysisTableLines toLocaleString analysis analysisTypes
        compareAnalysis compareAnalysisType compareBranch in
    let pct (f : AnalysisResult -> number) (a : AnalysisResult) :=
      toPercent (f a) (total a) in
    List.length (rows table) = 5%nat /\
    (percentCellIs "100.000%" (cell 2 (row 4 table)) /\
     percentCellIs "100.000%" (cell 4 (row 4 table)) /\
     percentCellIs "100.000%" (cell 6 (row 4 table))) /\
    (percentCellIs (pct reachable analysisTypes) (cell 2 (row 1 table)) /\
     percentCellIs (pct reachable (fields analysis)) (cell 4 (row 1 table)) /\
     percentCellIs (pct reachable (methods analysis)) (cell 6 (row 1 table))) /\
    (percentCellIs (pct reflection analysisTypes) (cell 2 (row 2 table)) /\
     percentCellIs (pct reflection (fields analysis)) (cell 4 (row 2 table)) /\
     percentCellIs (pct reflection (methods analysis)) (cell 6 (row 2 table))) /\
    (percentCellIs (pct jni analysisTypes) (cell 2 (row 3 table)) /\
     percentCellIs (pct jni (fields analysis)) (cell 4 (row 3 table)) /\
     percentCellIs (pct jni (methods analysis)) (cell 6 (row 3 table))).
Proof.
  intros. subst table pct. unfold percentCellIs.
  split; [ reflexivity | ].
  repeat split; eexists; read_cell.
Qed.

Lemma details_table_percent_cells :
  forall toLocaleString details objectCount debugInfoLine otherBytes
         compareDetails compareBranch compareOtherBytes,
    let table :=
      getDetailsTableLines toLocaleString details objectCount debugInfoLine
        otherBytes compareDetails compareBranch compareOtherBytes in
    List.length (rows table) = 5%nat /\
    percentCellIs "100.000%" (cell 2 (row 4 table)) /\
    percentCellIs (toPercent (code_bytes (code_area details)) (total_bytes details))
      (cell 2 (row 1 table)) /\
    percentCellIs (toPercent (heap_bytes (image_heap details)) (total_bytes details))
      (cell 2 (row 2 table)) /\
    percentCellIs (toPercent otherBytes (total_bytes details)) (cell 2 (row 3 table)).
Proof.
  intros. subst table. unfold percentCellIs.
  split; [ reflexivity | ].
  repeat split; eexists; read_cell.
Qed.

Transparent toPercent getCompareColumnBytes getCompareColumn bytesToHuman docLink
  getCompareTableHeader.

(** [createReport] is its header, the environment table, the two tables
    above, the resource usage table and the footer. *)
Lemma createReport_sections :
  forall toLocaleString context ref data compareData,
    createReport toLocaleString context ref data compareData =
    lines [
      getReportHeader (general_info data) (getTotalTime (resource_usage data))
        context;
      getEnvironmentTable (getVersionLine (general_info data))
        (getGraalLine (general_info data)) (general_info data);
      lines (analysisRowsOfReport toLocaleString ref data compareData);
      lines (detailsRowsOfReport toLocaleString ref data compareData);
      getResourceUsageTable (resource_usage data)
        (getTotalTimeRatio (resource_usage data))
        (rp_compareResources (reportParts ref data compareData))
        (rp_compareBranch (reportParts ref data compareData));
      getFooter ].
Proof. reflexivity. Qed.

(** ** Image Details: the thresholds of the compare column (C1) *)

(** C1, amended: for every pair of snapshots in comparison mode the code
    area, image heap, other data and total rows of the Image Details table
    are classified with lower bound 98, upper bound 110, smaller is better;
    for two snapshots that differ only in a total of 1,100,000 bytes against
    1,000,000 the computed ratio is 110.00000000000001, above 110, and the
    Total row is marked as regressed. *)
Theorem details_rows_thresholds :
  forall toLocaleString ref data base,
    let table := detailsRowsOfReport toLocaleString ref data (Some base) in
    let details := image_details data in
    let cd := image_details base in
    classifiedWith 98 110 (cell 2 (row 1 table))
      (toPercent (code_bytes (code_area details)) (total_bytes details))
      (code_bytes (code_area details)) (code_bytes (code_area cd)) /\
    classifiedWith 98 110 (cell 2 (row 2 table))
      (toPercent (heap_bytes (image_heap details)) (total_bytes details))
      (heap_bytes (image_heap details)) (heap_bytes (image_heap cd)) /\
    classifiedWith 98 110 (cell 2 (row 3 table))
      (toPercent (otherBytesOf details) (total_bytes details))
      (otherBytesOf details) (otherBytesOf cd) /\
    classifiedWith 98 110 (cell 2 (row 4 table)) "100.000%"
      (total_bytes details) (total_bytes cd) /\
    numberToString (mul (div (ofZ 1100000) (ofZ 1000000)) (ofZ 100)) =
      "110.00000000000001" /\
    let current := Samples.build None (Samples.details 1100000 400 300 None) in
    let baseline := Samples.build None (Samples.details 1000000 400 300 None) in
    cell 2 (row 4 (detailsRowsOfReport toLocaleString ref current (Some baseline))) =
      cellLine "100.000%" (regressedCell "97.66KB (+10.000%)").
Proof.
  intros. unfold classifiedWith. subst table details cd.
  unfold detailsRowsOfReport, reportParts, otherBytesOf. cbv zeta.
  cbn [rp_otherBytes rp_compareDetails rp_compareBranch rp_compareOtherBytes].
  rewrite details_code_row, details_heap_row, details_other_row,
    details_total_row.
  do 4 (split; [ reflexivity | ]).
  split; [ vm_compute; reflexivity | ].
  rewrite details_total_row. vm_compute. reflexivity.
Qed.

(** C1 as stated fails: at 109 bytes against 100 the Total row of the table
    is not the cell the thresholds 98 and 108 give; the table leaves it
    unmarked where those thresholds mark it as regressed. *)
Lemma details_total_row_not_98_108 :
  let current := Samples.build None (Samples.details 109 40 30 None) in
  let baseline := Samples.build None (Samples.details 100 40 30 None) in
  let table :=
    detailsRowsOfReport numberToString (Some "main") current (Some baseline) in
  ~ classifiedWith 98 108 (cell 2 (row 4 table)) "100.000%" (ofZ 109) (ofZ 100) /\
  cell 2 (row 4 table) = cellLine "100.000%" (neutralCell "9.00B (+9.000%)") /\
  getCompareColumnBytes (ofZ 109) (Some (ofZ 100)) (ofZ 98) (ofZ 108) true =
    regressedCell "9.00B (+9.000%)".
Proof.
  cbv zeta. unfold classifiedWith. split; [ | split ].
  - vm_compute. discriminate.
  - vm_compute. reflexivity.
  - vm_compute. reflexivity.
Qed.

(** ** The classifier on its boundaries (C2) *)

(** With [lo < hi] the three tests of [getCompareColumn] exclude one
    another; a ratio equal to a bound, or NaN, passes none. *)
Lemma getCompareColumn_bands (value compareValue lo hi : number)
    (smallIsPositive : bool) :
  lt lo hi = true ->
  let r := mul (div value compareValue) (ofZ 100) in
  let delta := toFixed (sub value compareValue) 2 ++ " (" ++
               getDiffPercent compareValue value ++ ")" in
  getCompareColumn value (Some compareValue) lo hi smallIsPositive =
    if lt r lo then
      markedLow (if smallIsPositive then ":green_circle:" else ":red_circle:") delta
    else if gt r hi then
      markedHigh (if smallIsPositive then ":red_circle:" else ":green_circle:") delta
    else if lt lo r && lt r hi then neutralCell delta
    else emptyCell.
Proof.
  intros Hb r delta. unfold getCompareColumn. fold r. fold delta.
  change (gt r hi) with (lt hi r). destruct (lt r lo) eqn:A.
  - rewrite (lt_asym r lo A).
    rewrite (lt_asym r hi (lt_trans r lo hi A Hb)).
    destruct smallIsPositive; reflexivity.
  - destruct (lt hi r) eqn:B.
    + rewrite (lt_asym hi r B), andb_false_r.
      destruct smallIsPositive; reflexivity.
    + destruct (lt lo r && lt r hi); destruct smallIsPositive; reflexivity.
Qed.

(** C2: a ratio equal to a bound falls in none of the three bands the
    template tests; at 98 against 100 with bounds 98 and 108 the ratio is
    exactly 98 and the cell carries neither a marker nor the delta and the
    percentage. *)
Theorem getCompareColumn_on_bound_is_empty :
  numberToString (mul (div (ofZ 98) (ofZ 100)) (ofZ 100)) = "98" /\
  getCompareColumn (ofZ 98) (Some (ofZ 100)) (ofZ 98) (ofZ 108) true = emptyCell /\
  getCompareColumn (ofZ 98) (Some (ofZ 100)) (ofZ 98) (ofZ 108) false = emptyCell /\
  getCompareColumn (ofZ 108) (Some (ofZ 100)) (ofZ 98) (ofZ 108) true = emptyCell /\
  getCompareColumn (ofZ 99) (Some (ofZ 100)) (ofZ 98) (ofZ 108) true =
    neutralCell "-1.00 (-1.000%)".
Proof. repeat split; vm_compute; reflexivity. Qed.

(** ** Zero denominators (C3) *)

(** C3 as stated fails: with a zero denominator the helpers print [NaN] and
    [Infinity], and the classifier marks a growth from zero as regressed. *)
Lemma zero_denominator_prints_non_numeric :
  numericText (toPercent (ofZ 0) (ofZ 0)) = false /\
  numericText (toPercent (ofZ 5) (ofZ 0)) = false /\
  numericText (getDiffPercent (ofZ 0) (ofZ 0)) = false /\
  numericText (getDiffPercent (ofZ 0) (ofZ 5)) = false /\
  numericText
    (getCompareColumn (ofZ 5) (Some (ofZ 0)) (ofZ 98) (ofZ 108) true) = false /\
  toPercent (ofZ 0) (ofZ 0) = "NaN%" /\
  toPercent (ofZ 5) (ofZ 0) = "Infinity%" /\
  getDiffPercent (ofZ 0) (ofZ 0) = "+NaN%" /\
  getDiffPercent (ofZ 0) (ofZ 5) = "+Infinity%" /\
  getCompareColumn (ofZ 5) (Some (ofZ 0)) (ofZ 98) (ofZ 108) true =
    regressedCell "5.00 (+Infinity%)".
Proof. repeat split; vm_compute; reflexivity. Qed.

Lemma ofZ_100 : ofZ 100 = S754_finite false 7036874417766400 (-46).
Proof. reflexivity. Qed.

Lemma toPercent_zero_total (part : number) :
  isFinite part = true ->
  toPercent part (ofZ 0) =
    if isZero part then "NaN%"
    else if negative part then "-Infinity%" else "Infinity%".
Proof.
  unfold toPercent. rewrite ofZ_100.
  destruct part as [s | s | | s m e]; try discriminate; intros _.
  - reflexivity.
  - destruct s; reflexivity.
Qed.

Lemma getDiffPercent_zero_base (recent : number) :
  isFinite recent = true ->
  getDiffPercent (ofZ 0) recent =
    if isZero recent then "+NaN%"
    else if negative recent then "-Infinity%" else "+Infinity%".
Proof.
  unfold getDiffPercent. rewrite ofZ_100.
  destruct recent as [s | s | | s m e]; try discriminate; intros _.
  - destruct s; reflexivity.
  - destruct s; reflexivity.
Qed.

Lemma getCompareColumn_zero_base (value lo hi : number) :
  ordinary value = true -> negative value = false ->
  ordinary lo = true -> ordinary hi = true ->
  getCompareColumn value (Some (ofZ 0)) lo hi true =
    regressedCell (toFixed value 2 ++ " (+Infinity%)").
Proof.
  intros Hv Hs Hlo Hhi.
  destruct value as [ | | | s m e]; try discriminate. simpl in Hs. subst s.
  destruct lo as [ | | | sl ml el]; try discriminate.
  destruct hi as [ | | | sh mh eh]; try discriminate.
  unfold getCompareColumn. rewrite getDiffPercent_zero_base by reflexivity.
  rewrite ofZ_100. destruct sl, sh; reflexivity.
Qed.

(** C3, amended: nothing guards a zero denominator.  With total 0,
    [toPercent] prints [NaN%] for a part of 0 and [Infinity%] or
    [-Infinity%] for any other finite part; with baseline 0,
    [getDiffPercent] prints [+NaN%] for a current value of 0 and
    [+Infinity%] or [-Infinity%] for any other finite one; and the
    classifier, for a positive finite current value against baseline 0 and
    ordinary bounds, marks the cell as regressed with [+Infinity%] in it. *)
Theorem zero_denominator_unguarded :
  forall x lo hi : number,
    isFinite x = true ->
    ordinary lo = true -> ordinary hi = true ->
    toPercent x (ofZ 0) =
      (if isZero x then "NaN%"
       else if negative x then "-Infinity%" else "Infinity%") /\
    getDiffPercent (ofZ 0) x =
      (if isZero x then "+NaN%"
       else if negative x then "-Infinity%" else "+Infinity%") /\
    (isZero x = false -> negative x = false ->
     getCompareColumn x (Some (ofZ 0)) lo hi true =
       regressedCell (toFixed x 2 ++ " (+Infinity%)")).
Proof.
  intros x lo hi Hx Hlo Hhi.
  split; [ now apply toPercent_zero_total | ].
  split; [ now apply getDiffPercent_zero_base | ].
  intros Hz Hn. apply getCompareColumn_zero_base; auto.
  destruct x; simpl in *; congruence.
Qed.

Lemma zero_denominator_unguarded_witness :
  toPercent (ofZ 7) (ofZ 0) = "Infinity%" /\
  getDiffPercent (ofZ 0) (ofZ 7) = "+Infinity%" /\
  getCompareColumn (ofZ 7) (Some (ofZ 0)) (ofZ 98) (ofZ 108) true =
    regressedCell "7.00 (+Infinity%)".
Proof.
  destruct (zero_denominator_unguarded (ofZ 7) (ofZ 98) (ofZ 108)
              eq_refl eq_refl eq_refl) as (H1 & H2 & H3).
  split; [ exact H1 | split; [ exact H2 | exact (H3 eq_refl eq_refl) ] ].
Defined.

(** ** The Types rows without a [types] category (C4) *)

(** The single report and the tabular comparison take the Types rows of each
    snapshot from that snapshot's own [types], or [classes] when it has
    none. *)
Lemma reportParts_types_fallback (ref : option string) (data base : BuildOutput) :
  rp_analysisTypes (reportParts ref data (Some base)) =
    match types (analysis_results data) with
    | Some t => t
    | None => classes (analysis_results data)
    end /\
  rp_compareAnalysisTypes (reportParts ref data (Some base)) =
    Some match types (analysis_results base) with
         | Some t => t
         | None => classes (analysis_results base)
         end /\
  rp_analysisTypes (reportParts ref data None) =
    rp_analysisTypes (reportParts ref data (Some base)).
Proof. repeat split. Qed.

(** The chart comparison decides for the base snapshot by looking at the
    recent one. *)
Lemma comparisonParts_types (recent base : BuildOutput) :
  cp_analysisTypesBase (comparisonParts recent base) =
    match types (analysis_results recent) with
    | Some _ => types (analysis_results base)
    | None => Some (classes (analysis_results base))
    end.
Proof. reflexivity. Qed.

(** C4: a recent snapshot with [types] compared against a base snapshot
    without: the chart comparison reads [types] of the base, which is
    undefined, and throws instead of printing the base's [classes]; the
    tabular comparison of the same two snapshots uses the base's
    [classes]. *)
Theorem createPRComparison_base_without_types :
  let recent := Samples.build (Some (Samples.counts 1200 900 40 12))
                  (Samples.details 1000 400 300 None) in
  let base := Samples.build None (Samples.details 1000 400 300 None) in
  createPRComparison "analysis results" (Some "main") (Some "feature") recent base =
    inl (TypeError "Cannot read properties of undefined (reading 'reachable')") /\
  rp_compareAnalysisTypes (reportParts (Some "main") recent (Some base)) =
    Some (classes (analysis_results base)).
Proof. split; vm_compute; reflexivity. Qed.

(** ** The derived other data (C5) *)

(** The single report and the tabular comparison derive the other data of
    each snapshot from that snapshot alone. *)
Lemma reportParts_otherBytes (ref : option string) (data base : BuildOutput) :
  rp_otherBytes (reportParts ref data None) = otherBytesOf (image_details data) /\
  rp_otherBytes (reportParts ref data (Some base)) =
    otherBytesOf (image_details data) /\
  rp_compareOtherBytes (reportParts ref data (Some base)) =
    Some (otherBytesOf (image_details base)).
Proof. repeat split. Qed.

(** In the chart comparison the base snapshot is right and the recent one
    is right only when both snapshots agree on the debug info. *)
Lemma comparisonParts_otherBytes (recent base : BuildOutput) :
  cp_otherBytesBase (comparisonParts recent base) =
    otherBytesOf (image_details base) /\
  cp_otherBytesRecent (comparisonParts recent base) =
    sub (sub (sub (total_bytes (image_details recent))
                  (code_bytes (code_area (image_details recent))))
             (heap_bytes (image_heap (image_details recent))))
        match debug_info (image_details base) with
        | Some b => b
        | None => ofZ 0
        end.
Proof. split; reflexivity. Qed.

(** C5: total 1000, code area 400, image heap 300, debug info 100 gives 200
    bytes of other data in the single report; in the chart comparison
    against a base snapshot without debug info the recent snapshot's other
    data is computed with the base's debug info and comes out as 300. *)
Theorem createPRComparison_other_data_of_recent :
  let recent := Samples.build None (Samples.details 1000 400 300 (Some 100)) in
  let base := Samples.build None (Samples.details 1000 400 300 None) in
  otherBytesOf (image_details recent) = ofZ 200 /\
  rp_otherBytes (reportParts None recent None) = ofZ 200 /\
  cp_otherBytesRecent (comparisonParts recent base) = ofZ 300 /\
  includes
    match createPRComparison "image details" (Some "main") (Some "feature")
            recent base with
    | inr text => text
    | inl _ => ""
    end
    ("section Other data" ++ nl ++ "    feature (300.00B): active, 0, 300") = true.
Proof. repeat split; vm_compute; reflexivity. Qed.

(** ** [bytesToHuman] (C6) *)

Lemma KiB_value : BYTES_TO_KiB = S754_finite false 4503599627370496 (-42).
Proof. vm_compute. reflexivity. Qed.
Lemma MiB_value : BYTES_TO_MiB = S754_finite false 4503599627370496 (-32).
Proof. vm_compute. reflexivity. Qed.
Lemma GiB_value : BYTES_TO_GiB = S754_finite false 4503599627370496 (-22).
Proof. vm_compute. reflexivity. Qed.
Lemma ten21_value : ofZ (10 ^ 21) = S754_finite false 7629394531250000 17.
Proof. vm_compute. reflexivity. Qed.

Lemma lt_zero_finite (s : bool) (m : positive) (e : Z) :
  lt (S754_finite s m e) (ofZ 0) = s.
Proof. destruct s; reflexivity. Qed.

Lemma bytesToHuman_finite (s : bool) (m : positive) (e : Z) :
  bounded prec emax m e = true ->
  lt (S754_finite false m e) (ofZ (10 ^ 21)) = true ->
  exists body,
    bytesToHuman (S754_finite s m e) = body ++ unitOf (S754_finite s m e) /\
    fixedNotation 2 s body.
Proof.
  intros Hb Hlt. rewrite ten21_value in Hlt. apply lt_exponent in Hlt.
  pose proof (bounded_mantissa m e Hb) as Hm.
  destruct (bounded_digits m e Hb) as [_ Hd].
  unfold bytesToHuman, unitOf. cbn [Math_abs SFabs].
  rewrite KiB_value, MiB_value, GiB_value.
  destruct (lt (S754_finite false m e) (S754_finite false 4503599627370496 (-42)))
    eqn:H1.
  { apply lt_exponent in H1. eexists; split; [ reflexivity | ].
    apply toFixed_finite, inFixedRange_small; [ assumption | lia ]. }
  apply not_lt_exponent in H1. specialize (Hd ltac:(lia)).
  destruct (lt (S754_finite false m e) (S754_finite false 4503599627370496 (-32)))
    eqn:H2.
  { apply lt_exponent in H2. rewrite div_pow2 by (auto; lia).
    eexists; split; [ reflexivity | ].
    apply toFixed_finite, inFixedRange_small; [ assumption | lia ]. }
  apply not_lt_exponent in H2.
  destruct (lt (S754_finite false m e) (S754_finite false 4503599627370496 (-22)))
    eqn:H3.
  { apply lt_exponent in H3. rewrite div_pow2 by (auto; lia).
    eexists; split; [ reflexivity | ].
    apply toFixed_finite, inFixedRange_small; [ assumption | lia ]. }
  apply not_lt_exponent in H3. rewrite div_pow2 by (auto; lia).
  eexists; split; [ reflexivity | ].
  apply toFixed_finite, inFixedRange_small; [ assumption | lia ].
Qed.

(** On integers the thresholds are the ones of the integer. *)
Lemma unitOf_integer (z : Z) :
  Z.abs z < 2 ^ 53 -> unitOf (ofZ z) = unitOfInteger z.
Proof.
  intros Hlt. destruct (Z.eq_dec z 0) as [-> | Hz]; [ reflexivity | ].
  destruct (ofZ_nonzero z Hz Hlt) as (m & e & -> & Hd & He & Hk).
  unfold unitOf, unitOfInteger. cbn [Math_abs SFabs].
  rewrite KiB_value, MiB_value, GiB_value, !lt_pow2 by assumption.
  change 1024 with (2 ^ 10). change (2 ^ 10 * 2 ^ 10) with (2 ^ 20).
  change (2 ^ 20 * 2 ^ 10) with (2 ^ 30).
  rewrite <- !Hk by lia.
  replace (e <? -42) with (e + 53 <=? 10) by (apply Bool.eq_true_iff_eq; rewrite Z.leb_le, Z.ltb_lt; lia).
  replace (e <? -32) with (e + 53 <=? 20) by (apply Bool.eq_true_iff_eq; rewrite Z.leb_le, Z.ltb_lt; lia).
  replace (e <? -22) with (e + 53 <=? 30) by (apply Bool.eq_true_iff_eq; rewrite Z.leb_le, Z.ltb_lt; lia).
  reflexivity.
Qed.

Lemma bytesToHuman_integer (z : Z) :
  Z.abs z < 2 ^ 53 ->
  exists body,
    bytesToHuman (ofZ z) = body ++ unitOfInteger z /\
    fixedNotation 2 (z <? 0) body.
Proof.
  intros Hlt. rewrite <- unitOf_integer by assumption.
  destruct (Z.eq_dec z 0) as [-> | Hz].
  { exists "0.00". split; [ vm_compute; reflexivity | apply (toFixed_zero false 1) ]. }
  destruct (ofZ_nonzero z Hz Hlt) as (m & e & -> & Hd & He & _).
  apply bytesToHuman_finite.
  - unfold bounded, canonical_mantissa. rewrite Hd.
    apply andb_true_intro. split.
    + apply Z.eqb_eq. unfold fexp, SpecFloat.emin, prec, emax. lia.
    + apply Z.leb_le. unfold prec, emax. lia.
  - rewrite ten21_value. apply lt_smaller_exponent. lia.
Qed.

(** C6: for every well-formed number of bytes below [10^21] in absolute
    value, [bytesToHuman] prints the unit chosen by the thresholds 1024,
    1024^2 and 1024^3 on the absolute value, after a figure in fixed
    notation with exactly two decimals that carries a minus sign exactly
    when the input is negative; for an integer number of bytes below [2^53]
    in absolute value the thresholds and the sign are those of the integer;
    1023 is printed in B, 1024 in KB, 1024^2 in MB and 1024^3 in GB. *)
Theorem bytesToHuman_format :
  forall (bytes : number) (z : Z),
    valid_binary prec emax bytes = true ->
    lt (Math_abs bytes) (ofZ (10 ^ 21)) = true ->
    Z.abs z < 2 ^ 53 ->
    (exists body,
       bytesToHuman bytes = body ++ unitOf bytes /\
       fixedNotation 2 (lt bytes (ofZ 0)) body) /\
    (exists body,
       bytesToHuman (ofZ z) = body ++ unitOfInteger z /\
       fixedNotation 2 (z <? 0) body) /\
    bytesToHuman (ofZ 1023) = "1023.00B" /\
    bytesToHuman (ofZ 1024) = "1.00KB" /\
    bytesToHuman (ofZ (1024 * 1024)) = "1.00MB" /\
    bytesToHuman (ofZ (1024 * 1024 * 1024)) = "1.00GB" /\
    bytesToHuman (ofZ (-1023)) = "-1023.00B" /\
    bytesToHuman (ofZ (-1536)) = "-1.50KB" /\
    bytesToHuman (ofZ (-3 * 1024 * 1024 * 1024)) = "-3.00GB".
Proof.
  intros bytes z Hv Hlt Hz. split; [ | split ].
  - destruct bytes as [s | s | | s m e].
    3: { rewrite ten21_value in Hlt. discriminate Hlt. }
    2: { rewrite ten21_value in Hlt. discriminate Hlt. }
    + exists "0.00". split; [ vm_compute; reflexivity | ].
      replace (lt (S754_zero s) (ofZ 0)) with false by (destruct s; reflexivity).
      apply (toFixed_zero s 1).
    + rewrite lt_zero_finite. now apply bytesToHuman_finite.
  - now apply bytesToHuman_integer.
  - repeat split; vm_compute; reflexivity.
Qed.

Lemma bytesToHuman_format_witness :
  (exists body,
     bytesToHuman (ofQ (-15365) 10) = body ++ unitOf (ofQ (-15365) 10) /\
     fixedNotation 2 (lt (ofQ (-15365) 10) (ofZ 0)) body) /\
  (exists body,
     bytesToHuman (ofZ (-1536)) = body ++ unitOfInteger (-1536) /\
     fixedNotation 2 (-1536 <? 0) body).
Proof.
  destruct (bytesToHuman_format (ofQ (-15365) 10) (-1536)) as (H1 & H2 & _).
  - vm_compute; reflexivity.
  - vm_compute; reflexivity.
  - reflexivity.
  - split; assumption.
Defined.

(** ** [getDiffPercent] (C7) *)

(** C7: for a baseline and a current value other than NaN the signed
    percentage is [+] when current >= baseline and [-] otherwise, followed
    by |current - baseline| / baseline * 100 printed by [toFixed(3)] and
    [%]; a finite magnitude below [10^21] is printed in fixed notation with
    exactly three decimals; (100, 150) gives [+50.000%] and (150, 100) gives
    [-33.333%]. *)
Theorem getDiffPercent_format :
  forall baseValue recentValue : number,
    isNaN baseValue = false -> isNaN recentValue = false ->
    getDiffPercent baseValue recentValue =
      (if ge recentValue baseValue then "+" else "-") ++
      toFixed (diffMagnitude baseValue recentValue) 3 ++ "%" /\
    match diffMagnitude baseValue recentValue with
    | S754_finite s m e =>
        inFixedRange m e = true ->
        fixedNotation 3 s (toFixed (diffMagnitude baseValue recentValue) 3)
    | S754_zero _ =>
        fixedNotation 3 false (toFixed (diffMagnitude baseValue recentValue) 3)
    | _ => True
    end /\
    getDiffPercent (ofZ 100) (ofZ 150) = "+50.000%" /\
    getDiffPercent (ofZ 150) (ofZ 100) = "-33.333%".
Proof.
  intros b r Hb Hr. split; [ | split ].
  - unfold getDiffPercent, diffMagnitude.
    rewrite (lt_negb_ge r b Hr Hb). destruct (ge r b); reflexivity.
  - destruct (diffMagnitude b r) as [s | s | | s m e]; auto.
    + apply (toFixed_zero s 2).
    + intros Hrange. now apply toFixed_finite.
  - split; vm_compute; reflexivity.
Qed.

Lemma getDiffPercent_format_witness :
  getDiffPercent (ofZ 150) (ofZ 100) =
    (if ge (ofZ 100) (ofZ 150) then "+" else "-") ++
    toFixed (diffMagnitude (ofZ 150) (ofZ 100)) 3 ++ "%".
Proof.
  apply (getDiffPercent_format (ofZ 150) (ofZ 100)); reflexivity.
Defined.

(** ** [secondsToHuman] (C8) *)

Lemma sixty_value : ofZ 60 = S754_finite false 8444249301319680 (-47).
Proof. vm_compute. reflexivity. Qed.

(** C8: for every seconds value that is at least 0, [secondsToHuman] prints
    the value with [toFixed(1)] and [s] when it is below 60, and otherwise
    floor(seconds / 60), [m], floor(seconds mod 60) and [s]; a well-formed
    value below 60 is printed in fixed notation with exactly one decimal;
    59.9 gives [59.9s] and 125 gives [2m 5s]. *)
Theorem secondsToHuman_format :
  forall seconds : number,
    ge seconds (ofZ 0) = true ->
    secondsToHuman seconds =
      (if lt seconds (ofZ 60) then toFixed seconds 1 ++ "s"
       else numberToString (Math_floor (div seconds (ofZ 60))) ++ "m " ++
            numberToString (Math_floor (rem seconds (ofZ 60))) ++ "s") /\
    (valid_binary prec emax seconds = true -> lt seconds (ofZ 60) = true ->
     fixedNotation 1 false (toFixed seconds 1)) /\
    secondsToHuman (ofQ 599 10) = "59.9s" /\
    secondsToHuman (ofZ 125) = "2m 5s".
Proof.
  intros seconds Hge. pose proof (ge_zero_nonneg seconds Hge) as Hs.
  split; [ | split ].
  - unfold secondsToHuman.
    rewrite (trunc_floor (div seconds (ofZ 60)))
      by (rewrite sixty_value; now apply div_nonneg).
    rewrite (trunc_floor (rem seconds (ofZ 60))) by (now apply rem_nonneg).
    reflexivity.
  - intros Hv Hlt. rewrite sixty_value in Hlt.
    destruct seconds as [s | s | | s m e];
      simpl in Hs; try subst s; try discriminate Hlt.
    + apply (toFixed_zero s 0).
    + apply lt_exponent in Hlt.
      apply toFixed_finite, inFixedRange_small;
        [ now apply bounded_mantissa with e | lia ].
  - split; vm_compute; reflexivity.
Qed.

Lemma secondsToHuman_format_witness :
  secondsToHuman (ofZ 3725) =
    numberToString (Math_floor (div (ofZ 3725) (ofZ 60))) ++ "m " ++
    numberToString (Math_floor (rem (ofZ 3725) (ofZ 60))) ++ "s" /\
  fixedNotation 1 false (toFixed (ofQ 599 10) 1).
Proof.
  split.
  - apply (secondsToHuman_format (ofZ 3725)). reflexivity.
  - apply (secondsToHuman_format (ofQ 599 10)); vm_compute; reflexivity.
Defined.

(** ** A missing build output file (C9) *)

(** C9: with job or pull request reports enabled and no build output file,
    [generateReports] emits the warning and returns normally; nothing is
    read, parsed, written or posted. *)
Theorem generateReports_missing_file :
  forall (toLocaleString : number -> string)
         (JSON_parse : string -> option BuildOutput)
         (JSON_stringify : BuildOutput -> string) (env : Env),
    areJobReportsEnabled env || arePRReportsEnabled env = true ->
    buildOutputFile env = None ->
    generateReports toLocaleString JSON_parse JSON_stringify env =
      ([Warning missingFileWarning], inr tt).
Proof.
  intros tls parse stringify env Hon Hfile.
  unfold generateReports. rewrite Hon, Hfile. reflexivity.
Qed.

Lemma generateReports_missing_file_witness :
  generateReports numberToString (fun _ => None) (fun _ => "") envWithoutFile =
    ([Warning missingFileWarning], inr tt).
Proof.
  apply (generateReports_missing_file numberToString (fun _ => None)
           (fun _ => "") envWithoutFile); reflexivity.
Defined.

(** With reports disabled nothing happens at all. *)
Lemma generateReports_disabled :
  forall toLocaleString JSON_parse JSON_stringify env,
    areJobReportsEnabled env || arePRReportsEnabled env = false ->
    generateReports toLocaleString JSON_parse JSON_stringify env = ([], inr tt).
Proof.
  intros tls parse stringify env Hoff.
  unfold generateReports. rewrite Hoff. reflexivity.
Qed.

(** ** The literal percent of the last row (C10) *)

(** C10: in the Analysis Results table and in the Image Details table the
    percent cells of the last row (Loaded, Total) hold the text [100.000%]
    whatever the data, also for a total of 0, where the computed percentage
    would read [NaN%]; the percent cells of all other rows hold
    [toPercent] of the row's value and the total. *)
Theorem last_row_percent_is_literal :
  forall toLocaleString analysis analysisTypes compareAnalysis
         compareAnalysisType compareBranch details objectCount debugInfoLine
         otherBytes compareDetails compareOtherBytes,
    let A :=
      getAnalysisTableLines toLocaleString analysis analysisTypes
        compareAnalysis compareAnalysisType compareBranch in
    let D :=
      getDetailsTableLines toLocaleString details objectCount debugInfoLine
        otherBytes compareDetails compareBranch compareOtherBytes in
    let pct (f : AnalysisResult -> number) (a : AnalysisResult) :=
      toPercent (f a) (total a) in
    (percentCellIs "100.000%" (cell 2 (row 4 A)) /\
     percentCellIs "100.000%" (cell 4 (row 4 A)) /\
     percentCellIs "100.000%" (cell 6 (row 4 A))) /\
    percentCellIs "100.000%" (cell 2 (row 4 D)) /\
    (List.length (rows A) = 5%nat /\ List.length (rows D) = 5%nat) /\
    (percentCellIs (pct reachable analysisTypes) (cell 2 (row 1 A)) /\
     percentCellIs (pct reachable (fields analysis)) (cell 4 (row 1 A)) /\
     percentCellIs (pct reachable (methods analysis)) (cell 6 (row 1 A)) /\
     percentCellIs (pct reflection analysisTypes) (cell 2 (row 2 A)) /\
     percentCellIs (pct reflection (fields analysis)) (cell 4 (row 2 A)) /\
     percentCellIs (pct reflection (methods analysis)) (cell 6 (row 2 A)) /\
     percentCellIs (pct jni analysisTypes) (cell 2 (row 3 A)) /\
     percentCellIs (pct jni (fields analysis)) (cell 4 (row 3 A)) /\
     percentCellIs (pct jni (methods analysis)) (cell 6 (row 3 A))) /\
    (percentCellIs
       (toPercent (code_bytes (code_area details)) (total_bytes details))
       (cell 2 (row 1 D)) /\
     percentCellIs
       (toPercent (heap_bytes (image_heap details)) (total_bytes details))
       (cell 2 (row 2 D)) /\
     percentCellIs (toPercent otherBytes (total_bytes details))
       (cell 2 (row 3 D))) /\
    toPercent (ofZ 0) (ofZ 0) = "NaN%".
Proof.
  intros.
  destruct (analysis_table_percent_cells toLocaleString analysis analysisTypes
              compareAnalysis compareAnalysisType compareBranch)
    as (HA & HL & (R1 & R2 & R3) & (F1 & F2 & F3) & (J1 & J2 & J3)).
  destruct (details_table_percent_cells toLocaleString details objectCount
              debugInfoLine otherBytes compareDetails compareBranch
              compareOtherBytes)
    as (HD & HT & HC & HH & HO).
  subst A D pct. cbv beta.
  split; [ exact HL | ]. split; [ exact HT | ]. split; [ now split | ].
  split; [ repeat split; assumption | ].
  split; [ repeat split; assumption | ].
  vm_compute. reflexivity.
Qed.

(** * Further properties of the report engine *)

(** ** A Number against itself *)

Section Quotients.

(** A finite Number that is not a zero, divided by itself, is 1. *)
Lemma div_self (s : bool) (m : positive) (e : Z) :
  div (S754_finite s m e) (S754_finite s m e) =
    S754_finite false 4503599627370496 (-52).
Proof.
  unfold div, SFdiv, SFdiv_core_binary.
  replace (Z.min (fexp prec emax (Zdigits2 (Z.pos m) + e - (Zdigits2 (Z.pos m) + e)))
             (e - e)) with (-53)
    by (unfold fexp, SpecFloat.emin, prec, emax; lia).
  replace (e - e - -53) with 53 by lia. cbv zeta iota beta.
  assert (Hq : Z.div_eucl (Z.shiftl (Z.pos m) 53) (Z.pos m) = (9007199254740992, 0)).
  { rewrite Z.shiftl_mul_pow2 by lia.
    pose proof (Z.div_eucl_eq (Z.pos m * 2 ^ 53) (Z.pos m) ltac:(lia)) as H.
    pose proof (Z.mod_pos_bound (Z.pos m * 2 ^ 53) (Z.pos m) ltac:(lia)) as Hb.
    unfold Z.modulo in Hb.
    destruct (Z.div_eucl (Z.pos m * 2 ^ 53) (Z.pos m)) as [q r].
    change (2 ^ 53) with 9007199254740992 in *.
    assert (q = 9007199254740992) by nia. subst q.
    f_equal. lia. }
  change IntDef.Z.div_eucl with Z.div_eucl. change IntDef.Z.shiftl with Z.shiftl.
  rewrite Hq. rewrite xorb_nilpotent.
  assert (Hl : new_location (Z.pos m) 0 = loc_Exact)
    by (unfold new_location; destruct (Z.even (Z.pos m)); reflexivity).
  rewrite Hl. vm_compute. reflexivity.
Qed.

Lemma sub_self (s : bool) (m : positive) (e : Z) :
  sub (S754_finite s m e) (S754_finite s m e) = S754_zero false.
Proof.
  unfold sub, SFsub. rewrite Z.sub_diag. reflexivity.
Qed.

Lemma lt_irrefl (x : number) : lt x x = false.
Proof.
  destruct (lt x x) eqn:E; [ | reflexivity ].
  now rewrite (lt_asym x x E) in E.
Qed.

Lemma one_times_100 :
  mul (S754_finite false 4503599627370496 (-52)) (ofZ 100) = ofZ 100.
Proof. vm_compute. reflexivity. Qed.

Lemma toPercent_self (s : bool) (m : positive) (e : Z) :
  toPercent (S754_finite s m e) (S754_finite s m e) = "100.000%".
Proof.
  unfold toPercent. rewrite div_self, one_times_100. vm_compute. reflexivity.
Qed.

Lemma normalizeValue_self (s : bool) (m : positive) (e : Z) :
  normalizeValue (S754_finite s m e) (S754_finite s m e) = "100".
Proof.
  unfold normalizeValue. rewrite div_self, one_times_100. vm_compute. reflexivity.
Qed.

Lemma getDiffPercent_self (s : bool) (m : positive) (e : Z) :
  getDiffPercent (S754_finite s m e) (S754_finite s m e) = "+0.000%".
Proof.
  unfold getDiffPercent. rewrite lt_irrefl, sub_self.
  destruct s; reflexivity.
Qed.

End Quotients.

(** ** The three compare columns *)

(** For bounds [lo < hi], [getCompareColumnBytes], [getCompareColumnTime]
    and [getCompareColumn] are one classifier: the ratio
    [value / compareValue * 100] below [lo] marks the delta with the circle
    of the lower band (green when smaller is better, red otherwise), above
    [hi] with the other circle, strictly between the bounds leaves it
    unmarked, and otherwise (on a bound, or a ratio that is NaN) the cell is
    empty.  They differ in the text of the delta only: through
    [bytesToHuman], with two decimals and [s], or with two decimals. *)
Theorem compare_columns_share_bands :
  forall (value compareValue lo hi : number) (smallIsPositive : bool),
    lt lo hi = true ->
    let r := mul (div value compareValue) (ofZ 100) in
    let pct := " (" ++ getDiffPercent compareValue value ++ ")" in
    getCompareColumnBytes value (Some compareValue) lo hi smallIsPositive =
      bandCell r lo hi smallIsPositive
        (bytesToHuman (sub value compareValue) ++ pct) /\
    getCompareColumnTime value (Some compareValue) lo hi smallIsPositive =
      bandCell r lo hi smallIsPositive
        (toFixed (sub value compareValue) 2 ++ "s" ++ pct) /\
    getCompareColumn value (Some compareValue) lo hi smallIsPositive =
      bandCell r lo hi smallIsPositive
        (toFixed (sub value compareValue) 2 ++ pct).
Proof.
  intros v c lo hi sp Hb r pct.
  assert (Hcases :
    (lt r lo = true /\ lt lo r = false /\ lt r hi = true /\ lt hi r = false) \/
    (lt r lo = false /\ lt hi r = true /\ lt r hi = false) \/
    (lt r lo = false /\ lt hi r = false)).
  { destruct (lt r lo) eqn:A.
    - left. repeat split; [ now apply lt_asym | now apply lt_trans with lo | ].
      apply lt_asym. now apply lt_trans with lo.
    - destruct (lt hi r) eqn:B; [ | now right; right ].
      right; left. repeat split. now apply lt_asym. }
  unfold getCompareColumnBytes, getCompareColumnTime, getCompareColumn, bandCell.
  fold r. change (gt r hi) with (lt hi r).
  destruct Hcases as [(A & B & C & D) | [(A & B & C) | (A & B)]];
    rewrite ?A, ?B, ?C, ?D, ?andb_false_r; cbn [andb].
  - repeat split; destruct sp; reflexivity.
  - repeat split; destruct sp; reflexivity.
  - repeat split; destruct (lt lo r && lt r hi); destruct sp; reflexivity.
Qed.

Lemma compare_columns_share_bands_witness :
  getCompareColumnBytes (ofZ 120) (Some (ofZ 100)) (ofZ 98) (ofZ 110) true =
    regressedCell "20.00B (+20.000%)".
Proof.
  destruct (compare_columns_share_bands (ofZ 120) (ofZ 100) (ofZ 98) (ofZ 110)
              true eq_refl) as [H _].
  exact H.
Defined.

(** A metric that is finite and equal in both snapshots gets the unmarked
    cell with a delta of zero, whatever the polarity and with the bounds of
    every table; when the metric is 0 in both snapshots the ratio is NaN
    and the cell is empty. *)
Theorem unchanged_metric_is_neutral :
  forall (x : number) (smallIsPositive : bool),
    isFinite x = true ->
    getCompareColumn x (Some x) (ofZ 98) (ofZ 108) smallIsPositive =
      (if isZero x then emptyCell else neutralCell "0.00 (+0.000%)") /\
    getCompareColumnBytes x (Some x) (ofZ 98) (ofZ 110) smallIsPositive =
      (if isZero x then emptyCell else neutralCell "0.00B (+0.000%)") /\
    getCompareColumnBytes x (Some x) (ofZ 98) (ofZ 108) smallIsPositive =
      (if isZero x then emptyCell else neutralCell "0.00B (+0.000%)") /\
    getCompareColumnTime x (Some x) (ofZ 98) (ofZ 108) smallIsPositive =
      (if isZero x then emptyCell else neutralCell "0.00s (+0.000%)").
Proof.
  intros x sp Hx. destruct x as [s | s | | s m e]; try discriminate.
  - repeat split; destruct s, sp; vm_compute; reflexivity.
  - unfold getCompareColumn, getCompareColumnBytes, getCompareColumnTime.
    rewrite div_self, one_times_100, sub_self, getDiffPercent_self.
    repeat split; destruct sp; vm_compute; reflexivity.
Qed.

Lemma unchanged_metric_is_neutral_witness :
  getCompareColumn (ofZ 7000) (Some (ofZ 7000)) (ofZ 98) (ofZ 108) true =
    neutralCell "0.00 (+0.000%)".
Proof.
  apply (unchanged_metric_is_neutral (ofZ 7000) true). reflexivity.
Defined.

(** ** The whole as a percentage, and the bars of the resource chart *)

(** [toPercent] of a finite value against itself is [100.000%], the text
    the tables' last rows hold as a literal, except for 0, where it is
    [NaN%]. *)
Theorem toPercent_of_whole :
  forall x : number,
    isFinite x = true ->
    toPercent x x = if isZero x then "NaN%" else "100.000%".
Proof.
  intros x Hx. destruct x as [s | s | | s m e]; try discriminate.
  - destruct s; reflexivity.
  - apply toPercent_self.
Qed.

Lemma toPercent_of_whole_witness : toPercent (ofZ 4096) (ofZ 4096) = "100.000%".
Proof. apply (toPercent_of_whole (ofZ 4096)). reflexivity. Defined.

(** The length [normalizeValue] gives the base branch's bar in the resource
    usage chart, for a finite base value: [100] when the recent value is
    the same and not 0; [NaN] when both are 0; [Infinity] or [-Infinity]
    when only the recent value is 0. *)
Theorem normalizeValue_edges :
  forall base : number,
    isFinite base = true ->
    normalizeValue base base = (if isZero base then "NaN" else "100") /\
    normalizeValue base (ofZ 0) =
      (if isZero base then "NaN"
       else if negative base then "-Infinity" else "Infinity").
Proof.
  intros x Hx. destruct x as [s | s | | s m e]; try discriminate.
  - split; destruct s; reflexivity.
  - split; [ apply normalizeValue_self | ].
    unfold normalizeValue. rewrite ofZ_100. destruct s; reflexivity.
Qed.

Lemma normalizeValue_edges_witness :
  normalizeValue (ofZ 512) (ofZ 512) = "100" /\
  normalizeValue (ofZ 512) (ofZ 0) = "Infinity".
Proof. apply (normalizeValue_edges (ofZ 512)). reflexivity. Defined.

(** ** The total time of the build *)

Section NotNaN.

Lemma iter_pos_invariant {A : Type} (P : A -> Prop) (f : A -> A) :
  (forall x, P x -> P (f x)) -> forall n x, P x -> P (iter_pos f n x).
Proof.
  intros Hf n. induction n as [n IH | n IH | ]; intros x Hx; simpl; auto.
Qed.

Lemma shr_1_nonneg (mrs : shr_record) : 0 <= shr_m mrs -> 0 <= shr_m (shr_1 mrs).
Proof.
  destruct mrs as [m r s]. simpl.
  destruct m as [ | [p | p | ] | [p | p | ]]; simpl; lia.
Qed.

Lemma shr_fexp_nonneg (m e : Z) (l : location) :
  0 <= m -> 0 <= shr_m (fst (shr_fexp prec emax m e l)).
Proof.
  intros Hm. unfold shr_fexp, shr.
  assert (H0 : 0 <= shr_m (shr_record_of_loc m l))
    by (destruct l as [ | [ | | ]]; exact Hm).
  destruct (fexp prec emax (Zdigits2 m + e) - e) as [ | p | p]; simpl; auto.
  apply (iter_pos_invariant (fun mrs => 0 <= shr_m mrs)); auto.
  apply shr_1_nonneg.
Qed.

Lemma round_nearest_even_nonneg (m : Z) (l : location) :
  0 <= m -> 0 <= round_nearest_even m l.
Proof.
  intros Hm. unfold round_nearest_even.
  destruct l as [ | [ | | ]]; try destruct (Z.even m); lia.
Qed.

(** Rounding a magnitude never gives NaN. *)
Lemma binary_round_aux_not_nan (s : bool) (m e : Z) (l : location) :
  0 <= m -> isNaN (binary_round_aux prec emax s m e l) = false.
Proof.
  intros Hm. unfold binary_round_aux.
  pose proof (shr_fexp_nonneg m e l Hm) as H1.
  destruct (shr_fexp prec emax m e l) as [mrs' e']. simpl in H1.
  pose proof (shr_fexp_nonneg
                (round_nearest_even (shr_m mrs') (loc_of_shr_record mrs')) e'
                loc_Exact (round_nearest_even_nonneg _ _ H1)) as H2.
  destruct (shr_fexp prec emax _ e' loc_Exact) as [mrs'' e'']. simpl in H2.
  destruct (shr_m mrs'') as [ | p | p]; try reflexivity; [ | lia ].
  destruct (e'' <=? emax - prec); reflexivity.
Qed.

(** A finite Number divided by a Number that is neither NaN nor a zero is
    not NaN. *)
Lemma div_not_nan (x y : number) :
  isFinite x = true -> isNaN y = false -> isZero y = false ->
  isNaN (div x y) = false.
Proof.
  destruct x as [sx | sx | | sx mx ex], y as [sy | sy | | sy my ey];
    try discriminate; try reflexivity. intros _ _ _.
  unfold div, SFdiv, SFdiv_core_binary.
  set (m' := match _ - _ - _ with Z0 => Z.pos mx | Zpos _ => _ | Zneg _ => 0 end).
  assert (Hm : 0 <= m').
  { subst m'. destruct (_ - _ - _) as [ | p | p]; try lia.
    change IntDef.Z.shiftl with Z.shiftl. apply Z.shiftl_nonneg. lia. }
  pose proof (Z.div_pos m' (Z.pos my) Hm ltac:(lia)) as Hq.
  unfold Z.div in Hq. change IntDef.Z.div_eucl with Z.div_eucl.
  destruct (Z.div_eucl m' (Z.pos my)) as [q r]. simpl in Hq.
  now apply binary_round_aux_not_nan.
Qed.

Lemma mul_100_not_nan (x : number) :
  isNaN x = false -> isNaN (mul x (ofZ 100)) = false.
Proof.
  rewrite ofZ_100. destruct x as [s | s | | s m e]; try discriminate;
    try reflexivity. intros _.
  unfold mul, SFmul. apply binary_round_aux_not_nan. lia.
Qed.

Lemma truthy_spec (t : number) : truthy t = negb (isZero t || isNaN t).
Proof. destruct t; reflexivity. Qed.

End NotNaN.

(** [getTotalTime] and [getTotalTimeRatio] print nothing when
    [total_secs] is absent, 0 or NaN, and both print otherwise; with the
    garbage collection time finite, the share of the total time that is
    printed is then the [toFixed(3)] of a Number that is not NaN: the test
    of [total_secs] keeps the zero denominator away. *)
Theorem total_time_guarded :
  forall resources : ResourceUsage,
    isFinite (gc_total_secs (garbage_collection resources)) = true ->
    match total_secs resources with
    | Some t =>
        if isZero t || isNaN t
        then getTotalTime resources = "" /\ getTotalTimeRatio resources = ""
        else
          getTotalTime resources = " in " ++ secondsToHuman t /\
          exists ratio : number,
            isNaN ratio = false /\
            getTotalTimeRatio resources =
              " (" ++ (toFixed ratio 3 ++ "%") ++ " of total time)"
    | None => getTotalTime resources = "" /\ getTotalTimeRatio resources = ""
    end.
Proof.
  intros resources Hgc. unfold getTotalTime, getTotalTimeRatio.
  destruct (total_secs resources) as [t | ]; [ | split; reflexivity ].
  rewrite truthy_spec.
  destruct (isZero t || isNaN t) eqn:E; cbn [negb]; [ split; reflexivity | ].
  apply orb_false_iff in E. destruct E as [Ez En].
  split; [ reflexivity | ].
  exists (mul (div (gc_total_secs (garbage_collection resources)) t) (ofZ 100)).
  split; [ | reflexivity ].
  apply mul_100_not_nan. now apply div_not_nan.
Qed.

Lemma total_time_guarded_witness :
  getTotalTime Runs.timed = " in " ++ secondsToHuman (ofZ 90) /\
  exists ratio : number,
    isNaN ratio = false /\
    getTotalTimeRatio Runs.timed =
      " (" ++ (toFixed ratio 3 ++ "%") ++ " of total time)".
Proof. exact (total_time_guarded Runs.timed eq_refl). Defined.

(** ** The compare column of the two tables *)

Opaque toPercent getCompareColumnBytes getCompareColumn bytesToHuman docLink
  getCompareTableHeader.

Lemma analysis_compare_cells :
  forall toLocaleString analysis analysisTypes ca ct compareBranch,
    let A :=
      getAnalysisTableLines toLocaleString analysis analysisTypes (Some ca)
        (Some ct) compareBranch in
    let compared (x b : AnalysisResult) (f : AnalysisResult -> number) :=
      getCompareColumn (f x) (Some (f b)) (ofZ 98) (ofZ 108) true in
    let rowIs (i : nat) (f : AnalysisResult -> number) (last : bool) :=
      let pct (x : AnalysisResult) :=
        if last then "100.000%" else toPercent (f x) (total x) in
      cell 2 (row i A) =
        cellLine (pct analysisTypes) (compared analysisTypes ct f) /\
      cell 4 (row i A) =
        cellLine (pct (fields analysis))
          (compared (fields analysis) (fields ca) f) /\
      cell 6 (row i A) =
        cellLine (pct (methods analysis))
          (compared (methods analysis) (methods ca) f) in
    rowIs 1%nat reachable false /\ rowIs 2%nat reflection false /\
    rowIs 3%nat jni false /\ rowIs 4%nat total true.
Proof.
  intros. subst A compared rowIs. cbv beta zeta.
  repeat split; read_cell.
Qed.

Lemma header_cells :
  forall toLocaleString analysis analysisTypes compareAnalysis
         compareAnalysisType details objectCount debugInfoLine otherBytes
         compareDetails compareOtherBytes compareBranch,
    let A :=
      getAnalysisTableLines toLocaleString analysis analysisTypes
        compareAnalysis compareAnalysisType compareBranch in
    let D :=
      getDetailsTableLines toLocaleString details objectCount debugInfoLine
        otherBytes compareDetails compareBranch compareOtherBytes in
    let h := percentHeader (getCompareTableHeader compareBranch) in
    cell 2 (row 0 A) = h /\ cell 4 (row 0 A) = h /\ cell 6 (row 0 A) = h /\
    cell 2 (row 0 D) = h.
Proof.
  intros. subst A D h. repeat split; read_cell.
Qed.

Transparent toPercent getCompareColumnBytes getCompareColumn bytesToHuman docLink
  getCompareTableHeader.

(** In the tabular comparison of any two snapshots every compare cell of
    the Analysis Results table, in the columns of types, fields and methods
    and in the rows Reachable, Reflection, JNI and Loaded, is
    [getCompareColumn] of the recent count against the base count with the
    bounds 98 and 108, smaller is better; the Types column takes each
    snapshot's [types], or its [classes] when it has none. *)
Theorem analysis_rows_thresholds :
  forall toLocaleString ref data base,
    let A := analysisRowsOfReport toLocaleString ref data (Some base) in
    let compared (x b : AnalysisResult) (f : AnalysisResult -> number) :=
      getCompareColumn (f x) (Some (f b)) (ofZ 98) (ofZ 108) true in
    let rowIs (i : nat) (f : AnalysisResult -> number) (last : bool) :=
      let pct (x : AnalysisResult) :=
        if last then "100.000%" else toPercent (f x) (total x) in
      cell 2 (row i A) =
        cellLine (pct (typesOf data)) (compared (typesOf data) (typesOf base) f) /\
      cell 4 (row i A) =
        cellLine (pct (fields (analysis_results data)))
          (compared (fields (analysis_results data))
             (fields (analysis_results base)) f) /\
      cell 6 (row i A) =
        cellLine (pct (methods (analysis_results data)))
          (compared (methods (analysis_results data))
             (methods (analysis_results base)) f) in
    rowIs 1%nat reachable false /\ rowIs 2%nat reflection false /\
    rowIs 3%nat jni false /\ rowIs 4%nat total true.
Proof.
  intros tls ref data base.
  exact (analysis_compare_cells tls (analysis_results data) (typesOf data)
           (analysis_results base) (typesOf base) (Some ref)).
Qed.

(** The header above every percent column of the Analysis Results and Image
    Details tables: in a single report it ends after [in %]; in a
    comparison it is followed by the cell [Compared to] with the value of
    [GITHUB_BASE_REF], which reads [undefined] when the variable is not
    set. *)
Theorem compare_column_header :
  forall toLocaleString (ref : option string) data base,
    let header (compareData : option BuildOutput) :=
      [ cell 2 (row 0 (analysisRowsOfReport toLocaleString ref data compareData));
        cell 4 (row 0 (analysisRowsOfReport toLocaleString ref data compareData));
        cell 6 (row 0 (analysisRowsOfReport toLocaleString ref data compareData));
        cell 2 (row 0 (detailsRowsOfReport toLocaleString ref data compareData)) ] in
    header None = repeat (percentHeader "") 4 /\
    header (Some base) =
      repeat (percentHeader
                (comparedTo match ref with Some b => b | None => "undefined" end))
        4.
Proof.
  intros tls ref data base header. subst header. cbv beta.
  unfold analysisRowsOfReport, detailsRowsOfReport.
  split.
  - destruct (header_cells tls (analysis_results data)
                (rp_analysisTypes (reportParts ref data None))
                (rp_compareAnalysis (reportParts ref data None))
                (rp_compareAnalysisTypes (reportParts ref data None))
                (image_details data)
                match objects (image_heap (image_details data)) with
                | Some count => tls count ++ " objects, "
                | None => ""
                end
                (getDebugInfoLine (image_details data)
                   match debug_info (image_details data) with
                   | Some b => b
                   | None => ofZ 0
                   end)
                (rp_otherBytes (reportParts ref data None))
                (rp_compareDetails (reportParts ref data None))
                (rp_compareOtherBytes (reportParts ref data None))
                (rp_compareBranch (reportParts ref data None)))
      as (H2 & H4 & H6 & HD).
    cbv zeta in H2, H4, H6, HD |- *. rewrite H2, H4, H6, HD. reflexivity.
  - destruct (header_cells tls (analysis_results data)
                (rp_analysisTypes (reportParts ref data (Some base)))
                (rp_compareAnalysis (reportParts ref data (Some base)))
                (rp_compareAnalysisTypes (reportParts ref data (Some base)))
                (image_details data)
                match objects (image_heap (image_details data)) with
                | Some count => tls count ++ " objects, "
                | None => ""
                end
                (getDebugInfoLine (image_details data)
                   match debug_info (image_details data) with
                   | Some b => b
                   | None => ofZ 0
                   end)
                (rp_otherBytes (reportParts ref data (Some base)))
                (rp_compareDetails (reportParts ref data (Some base)))
                (rp_compareOtherBytes (reportParts ref data (Some base)))
                (rp_compareBranch (reportParts ref data (Some base))))
      as (H2 & H4 & H6 & HD).
    cbv zeta in H2, H4, H6, HD |- *. rewrite H2, H4, H6, HD.
    destruct ref; reflexivity.
Qed.

(** ** The chart comparison: when it throws, and how it reads its parameter *)

Section Chart.

Lemma lowerChar_idempotent (c : ascii) : lowerChar (lowerChar c) = lowerChar c.
Proof.
  destruct c as [[] [] [] [] [] [] [] []]; vm_compute; reflexivity.
Qed.

Lemma toLowerCase_idempotent (s : string) :
  toLowerCase (toLowerCase s) = toLowerCase s.
Proof.
  induction s as [ | c s IH]; simpl; [ reflexivity | ].
  now rewrite lowerChar_idempotent, IH.
Qed.

Lemma createPRComparison_outcome (p : string) (bb rb : option string)
    (dataRecent dataBase : BuildOutput) :
  if chartThrows p dataRecent dataBase
  then createPRComparison p bb rb dataRecent dataBase =
         inl (TypeError "Cannot read properties of undefined (reading 'reachable')")
  else exists text, createPRComparison p bb rb dataRecent dataBase = inr text.
Proof.
  unfold chartThrows, typesMissing, createPRComparison, comparisonParts.
  cbv zeta. cbn [cp_analysisTypesRecent cp_analysisTypesBase].
  destruct (includes (toLowerCase p) "analysis results");
    destruct (types (analysis_results dataRecent));
    destruct (types (analysis_results dataBase)); simpl; eauto.
Qed.

End Chart.

(** [createPRComparison] throws exactly when its parameter asks for the
    analysis results, the recent snapshot has [types] and the base snapshot
    has none; in every other case it returns a comment, and the error is
    the [TypeError] of reading [reachable] of [undefined]. *)
Theorem createPRComparison_throws_iff :
  forall (p : string) (bb rb : option string) (dataRecent dataBase : BuildOutput),
    ((exists e, createPRComparison p bb rb dataRecent dataBase = inl e) <->
     (includes (toLowerCase p) "analysis results" = true /\
      types (analysis_results dataRecent) <> None /\
      types (analysis_results dataBase) = None)) /\
    ((exists text, createPRComparison p bb rb dataRecent dataBase = inr text) \/
     createPRComparison p bb rb dataRecent dataBase =
       inl (TypeError "Cannot read properties of undefined (reading 'reachable')")).
Proof.
  intros p bb rb dataRecent dataBase.
  pose proof (createPRComparison_outcome p bb rb dataRecent dataBase) as H.
  unfold chartThrows, typesMissing in H.
  destruct (includes (toLowerCase p) "analysis results");
    destruct (types (analysis_results dataRecent)) as [tr | ];
    destruct (types (analysis_results dataBase)) as [tb | ];
    cbn [andb negb] in H.
  all: lazymatch type of H with
       | ex _ =>
           destruct H as [text H];
           split; [ split; [ intros [e He]; congruence
                           | intros (A & B & C); congruence ]
                  | left; eauto ]
       | _ =>
           split; [ split; [ intros _; repeat split; congruence
                           | intros _; eauto ]
                  | right; exact H ]
       end.
Qed.

(** The category names are matched whatever their case: the comment for a
    parameter is the comment for the parameter in lower case. *)
Theorem createPRComparison_ignores_case :
  forall (p : string) (bb rb : option string) (dataRecent dataBase : BuildOutput),
    createPRComparison (toLowerCase p) bb rb dataRecent dataBase =
    createPRComparison p bb rb dataRecent dataBase.
Proof.
  intros. unfold createPRComparison. now rewrite toLowerCase_idempotent.
Qed.

(** ** The runs of [generateReports]

    What a report and a comment hold stays folded while a run is traced. *)

Opaque createReport createPRComparison.

Section RunsOfGenerateReports.

Variable toLocaleString : number -> string.
Variable JSON_parse : string -> option BuildOutput.
Variable JSON_stringify : BuildOutput -> string.

Lemma flags_outside_pr (env : Env) :
  isPREvent env = false ->
  arePRReportsEnabled env = false /\ arePRBaseComparisonEnabled env = false.
Proof.
  intros H. unfold arePRReportsEnabled, arePRBaseComparisonEnabled.
  now rewrite H.
Qed.

(** Outside a pull request event no run posts a comment or asks for the
    metrics of the base branch, whatever the inputs, the file and the
    parser. *)
Theorem nothing_reaches_pull_request_outside_pr (env : Env) :
  isPREvent env = false ->
  forallb (fun e => negb (reachesPullRequest e))
    (fst (generateReports toLocaleString JSON_parse JSON_stringify env)) = true.
Proof.
  intros H. destruct (flags_outside_pr env H) as [Hr Hc].
  unfold generateReports. rewrite Hr, Hc. cbn [andb orb negb].
  rewrite orb_false_r.
  destruct (areJobReportsEnabled env); [ | reflexivity ].
  destruct (buildOutputFile env) as [content | ]; [ | reflexivity ].
  unfold parse. destruct (JSON_parse content); reflexivity.
Qed.

(** A build output file that is not JSON: the file is read, [JSON.parse]
    throws, and nothing is written, posted or stored. *)
Theorem malformed_build_output (env : Env) (content : string) :
  areJobReportsEnabled env || arePRReportsEnabled env = true ->
  buildOutputFile env = Some content ->
  JSON_parse content = None ->
  generateReports toLocaleString JSON_parse JSON_stringify env =
    ([ReadFile], inl SyntaxError).
Proof.
  intros Hon Hf Hp. unfold generateReports, parse.
  rewrite Hon, Hf, Hp. reflexivity.
Qed.

(** Without the comparison against the base branch a run reads the file,
    writes the report to the job summary when job reports are on, posts the
    same report as a comment when pull request reports are on, then stores
    the build output as a tree and creates the ref of the tree's hash, in
    this order, and returns. *)
Theorem single_report_run (env : Env) (content : string) (b : BuildOutput) :
  areJobReportsEnabled env || arePRReportsEnabled env = true ->
  arePRBaseComparisonEnabled env = false ->
  buildOutputFile env = Some content ->
  JSON_parse content = Some b ->
  let report :=
    createReport toLocaleString (context env) (GITHUB_BASE_REF env) b None in
  generateReports toLocaleString JSON_parse JSON_stringify env =
    (([ReadFile] ++ summaryEvents env report ++
      (if arePRReportsEnabled env then [CreatePRComment report] else []) ++
      storeEvents env (JSON_stringify b))%list,
     inr tt).
Proof.
  intros Hon Hc Hf Hp report. subst report.
  unfold generateReports, parse, summaryEvents, storeEvents.
  rewrite Hon, Hc, Hf, Hp.
  destruct (areJobReportsEnabled env), (arePRReportsEnabled env); reflexivity.
Qed.

(** With the comparison against the base branch on, the single report goes
    to the job summary only, never to the pull request; after the tree and
    the ref the run asks for the base metrics, posts the tabular comparison,
    asks for the base metrics a second time, and then either posts the
    chart comparison and returns, or ends with the error of
    [createPRComparison], the tabular comparison already posted. *)
Theorem comparison_run (env : Env) (content : string) (b base : BuildOutput) :
  areJobReportsEnabled env || arePRReportsEnabled env = true ->
  arePRBaseComparisonEnabled env = true ->
  buildOutputFile env = Some content ->
  JSON_parse content = Some b ->
  JSON_parse (prBaseBranchMetrics env) = Some base ->
  let report := createReport toLocaleString (context env) (GITHUB_BASE_REF env) b in
  let chart :=
    createPRComparison (getPRComparePara env) (GITHUB_BASE_REF env)
      (GITHUB_HEAD_REF env) b base in
  generateReports toLocaleString JSON_parse JSON_stringify env =
    (([ReadFile] ++ summaryEvents env (report None) ++
      storeEvents env (JSON_stringify b) ++
      [GetPrBaseBranchMetrics; CreatePRComment (report (Some base));
       GetPrBaseBranchMetrics] ++
      match chart with
      | inr text => [CreatePRComment text]
      | inl _ => []
      end)%list,
     match chart with
     | inr _ => inr tt
     | inl e => inl e
     end).
Proof.
  intros Hon Hc Hf Hp Hb report chart. subst report chart.
  unfold generateReports, parse, getPrBaseBranchMetrics, summaryEvents,
    storeEvents.
  rewrite Hon, Hc, Hf, Hp. cbn [negb andb]. rewrite andb_false_r.
  destruct (areJobReportsEnabled env); cbn; rewrite Hb; cbn;
    destruct (createPRComparison _ _ _ b base); reflexivity.
Qed.

(** Base metrics that are not JSON: the job summary is written and the tree
    and the ref are created before the run ends with the error of
    [JSON.parse]; no comment is posted. *)
Theorem malformed_base_metrics (env : Env) (content : string) (b : BuildOutput) :
  areJobReportsEnabled env || arePRReportsEnabled env = true ->
  arePRBaseComparisonEnabled env = true ->
  buildOutputFile env = Some content ->
  JSON_parse content = Some b ->
  JSON_parse (prBaseBranchMetrics env) = None ->
  generateReports toLocaleString JSON_parse JSON_stringify env =
    (([ReadFile] ++
      summaryEvents env
        (createReport toLocaleString (context env) (GITHUB_BASE_REF env) b None) ++
      storeEvents env (JSON_stringify b) ++ [GetPrBaseBranchMetrics])%list,
     inl SyntaxError).
Proof.
  intros Hon Hc Hf Hp Hb.
  unfold generateReports, parse, getPrBaseBranchMetrics, summaryEvents,
    storeEvents.
  rewrite Hon, Hc, Hf, Hp. cbn [negb andb]. rewrite andb_false_r.
  destruct (areJobReportsEnabled env); cbn; rewrite Hb; reflexivity.
Qed.

End RunsOfGenerateReports.

Transparent createReport createPRComparison.

Lemma nothing_reaches_pull_request_outside_pr_witness :
  forallb (fun e => negb (reachesPullRequest e))
    (fst (generateReports numberToString Runs.parse Runs.stringify
            (Runs.env true true true false (Some "recent")))) = true.
Proof.
  exact (nothing_reaches_pull_request_outside_pr numberToString Runs.parse
           Runs.stringify (Runs.env true true true false (Some "recent"))
           eq_refl).
Defined.

Lemma malformed_build_output_witness :
  generateReports numberToString Runs.parse Runs.stringify
    (Runs.env true false false false (Some "{")) =
    ([ReadFile], inl SyntaxError).
Proof.
  exact (malformed_build_output numberToString Runs.parse Runs.stringify
           (Runs.env true false false false (Some "{")) "{"
           eq_refl eq_refl eq_refl).
Defined.

Lemma single_report_run_witness :
  let report :=
    createReport numberToString Samples.ctx (Some "main") Runs.recent None in
  generateReports numberToString Runs.parse Runs.stringify
    (Runs.env true true false true (Some "recent")) =
    ([ReadFile; SummaryAddRaw report; SummaryWrite; CreatePRComment report;
      CreateTree "json"; CreateRef "sha"], inr tt).
Proof.
  exact (single_report_run numberToString Runs.parse Runs.stringify
           (Runs.env true true false true (Some "recent")) "recent" Runs.recent
           eq_refl eq_refl eq_refl eq_refl).
Defined.

Lemma comparison_run_witness :
  let report := createReport numberToString Samples.ctx (Some "main") Runs.recent in
  let chart :=
    createPRComparison "image details" (Some "main") (Some "feature")
      Runs.recent Runs.base in
  generateReports numberToString Runs.parse Runs.stringify
    (Runs.env true true true true (Some "recent")) =
    ([ReadFile; SummaryAddRaw (report None); SummaryWrite;
      CreateTree "json"; CreateRef "sha";
      GetPrBaseBranchMetrics; CreatePRComment (report (Some Runs.base));
      GetPrBaseBranchMetrics] ++
     match chart with
     | inr text => [CreatePRComment text]
     | inl _ => []
     end,
     match chart with
     | inr _ => inr tt
     | inl e => inl e
     end)%list.
Proof.
  exact (comparison_run numberToString Runs.parse Runs.stringify
           (Runs.env true true true true (Some "recent")) "recent" Runs.recent
           Runs.base eq_refl eq_refl eq_refl eq_refl eq_refl).
Defined.

Lemma malformed_base_metrics_witness :
  generateReports numberToString (fun text => if String.eqb text "recent"
                                              then Some Runs.recent else None)
    Runs.stringify (Runs.env false true true true (Some "recent")) =
    ([ReadFile; CreateTree "json"; CreateRef "sha"; GetPrBaseBranchMetrics],
     inl SyntaxError).
Proof.
  exact (malformed_base_metrics numberToString
           (fun text => if String.eqb text "recent" then Some Runs.recent else None)
           Runs.stringify (Runs.env false true true true (Some "recent"))
           "recent" Runs.recent eq_refl eq_refl eq_refl eq_refl eq_refl).
Defined.

(** ** The options file and the set-up of the build *)

Section Options.

Variable NATIVE_IMAGE_CONFIG_FILE : string.








(** Setting an option leaves every other file and every other environment
    variable as they were; afterwards [NATIVE_IMAGE_CONFIG_FILE] names the
    options file, and the variable is exported exactly when it was not
    set. *)
Theorem setNativeImageOption_frame (v : string) (w : World) :
  let w' := fst (setNativeImageOption NATIVE_IMAGE_CONFIG_FILE v w) in
  (forall path, path <> optionsPath NATIVE_IMAGE_CONFIG_FILE w ->
                files w' path = files w path) /\
  (forall k, k <> NATIVE_IMAGE_CONFIG_FILE_ENV ->
             processEnv w' k = processEnv w k) /\
  processEnv w' NATIVE_IMAGE_CONFIG_FILE_ENV =
    Some (optionsPath NATIVE_IMAGE_CONFIG_FILE w) /\
  snd (setNativeImageOption NATIVE_IMAGE_CONFIG_FILE v w) =
    match processEnv w NATIVE_IMAGE_CONFIG_FILE_ENV with
    | Some _ => []
    | None => [ExportVariable NATIVE_IMAGE_CONFIG_FILE_ENV NATIVE_IMAGE_CONFIG_FILE]
    end.
Proof.
  unfold setNativeImageOption, getNativeImageOptionsFile, optionsPath.
  destruct (processEnv w NATIVE_IMAGE_CONFIG_FILE_ENV) as [f | ] eqn:E.
  - destruct (files w f); simpl; (split; [ | split; [ | split ] ]);
      try reflexivity; try assumption;
      intros path Hp; apply String.eqb_neq in Hp; now rewrite Hp.
  - cbn [files setEnv]. destruct (files w NATIVE_IMAGE_CONFIG_FILE); simpl;
      (split; [ | split; [ | split ] ]); try reflexivity;
      intros k Hk; apply String.eqb_neq in Hk; now rewrite Hk.
Qed.

End Options.



Section SetUpOfTheBuild.

Variables NATIVE_IMAGE_CONFIG_FILE BUILD_OUTPUT_JSON_PATH : string.
Variables VERSION_LATEST VERSION_DEV MANDREL_NAMESPACE : string.
Variable gteSemVer : string -> option bool.

(** With job reports and pull request reports both off nothing is set up
    and nothing is reported: the set-up leaves the world as it is without
    looking at the version, and [generateReports] does nothing, also when
    the comparison against the base branch is switched on. *)
Theorem reports_off_nothing_happens
    (toLocaleString : number -> string)
    (JSON_parse : string -> option BuildOutput)
    (JSON_stringify : BuildOutput -> string)
    (env : Env) (isGraalVMforJDK17OrLater : bool) (graalVMVersion : string)
    (w : World) :
  areJobReportsEnabled env = false ->
  arePRReportsEnabled env = false ->
  setUpNativeImageBuildReports NATIVE_IMAGE_CONFIG_FILE BUILD_OUTPUT_JSON_PATH
    VERSION_LATEST VERSION_DEV MANDREL_NAMESPACE gteSemVer env
    isGraalVMforJDK17OrLater graalVMVersion w = Some (w, []) /\
  generateReports toLocaleString JSON_parse JSON_stringify env = ([], inr tt).
Proof.
  intros Hj Hp.
  unfold setUpNativeImageBuildReports, generateReports. rewrite Hj, Hp.
  split; reflexivity.
Qed.

(** With reports on, a version that is not for JDK 17 or later and is
    neither the latest nor the dev one gets the warning and nothing else
    when it is a Mandrel version (whatever its number) or older than
    22.2.0: no variable is exported and no file is written. *)
Theorem unsupported_version_only_warns
    (env : Env) (graalVMVersion : string) (w : World) :
  areJobReportsEnabled env || arePRReportsEnabled env = true ->
  String.eqb graalVMVersion VERSION_LATEST = false ->
  String.eqb graalVMVersion VERSION_DEV = false ->
  startsWith graalVMVersion MANDREL_NAMESPACE = true \/
    gteSemVer graalVMVersion = Some false ->
  setUpNativeImageBuildReports NATIVE_IMAGE_CONFIG_FILE BUILD_OUTPUT_JSON_PATH
    VERSION_LATEST VERSION_DEV MANDREL_NAMESPACE gteSemVer env false
    graalVMVersion w =
    Some (w, [CoreWarning
                ("Build reports for PRs and job summaries are only available in GraalVM 22.2.0 or later. This build job uses GraalVM " ++
                 graalVMVersion ++ ".")]).
Proof.
  intros Hon Hl Hd Hv. unfold setUpNativeImageBuildReports.
  rewrite Hon, Hl, Hd. cbn [negb].
  destruct (startsWith graalVMVersion MANDREL_NAMESPACE); cbn [negb];
    [ reflexivity | ].
  destruct Hv as [Hv | Hv]; [ discriminate | now rewrite Hv ].
Qed.


End SetUpOfTheBuild.

Lemma reports_off_nothing_happens_witness :
  setUpNativeImageBuildReports "/tmp/o" "/tmp/b" "latest" "dev" "mandrel-"
    (fun _ => None) (Runs.env false false true true (Some "recent")) false
    "not a version" Runs.emptyWorld = Some (Runs.emptyWorld, []) /\
  generateReports numberToString Runs.parse Runs.stringify
    (Runs.env false false true true (Some "recent")) = ([], inr tt).
Proof.
  exact (reports_off_nothing_happens "/tmp/o" "/tmp/b" "latest" "dev" "mandrel-"
           (fun _ => None) numberToString Runs.parse Runs.stringify
           (Runs.env false false true true (Some "recent")) false
           "not a version" Runs.emptyWorld eq_refl eq_refl).
Defined.

Lemma unsupported_version_only_warns_witness :
  setUpNativeImageBuildReports "/tmp/o" "/tmp/b" "latest" "dev" "mandrel-"
    (fun _ => Some true) (Runs.env true false false false None) false
    "mandrel-23.0.0.0" Runs.emptyWorld =
    Some (Runs.emptyWorld,
          [CoreWarning
             "Build reports for PRs and job summaries are only available in GraalVM 22.2.0 or later. This build job uses GraalVM mandrel-23.0.0.0."]).
Proof.
  exact (unsupported_version_only_warns "/tmp/o" "/tmp/b" "latest" "dev"
           "mandrel-" (fun _ => Some true) (Runs.env true false false false None)
           "mandrel-23.0.0.0" Runs.emptyWorld eq_refl eq_refl eq_refl
           (or_introl eq_refl)).
Defined.

